(** * ITDM demand workflow: stage table, approval state machine, row update

    A shallow embedding of the workflow core of the ITDM demand management
    front end:

    - [Workflow]  : [workflow.ts]  (the nine-entry stage table and
                    [buildWorkflow], the progress view);
    - [Api]       : [api.ts]       ([toUtcMidnight] and the merge-then-write
                    [updateDemand]);
    - [App]       : the [DemandManagementSystem] component (the five-entry
                    [STAGE_FLOW], [stageIndex], [requiredRoleForStage],
                    [nextStageFrom], the guard [userCanActOnSelected] and the
                    handlers [approveSelected] / [rejectSelected]);
    - [Views], [Listing], [Submit] : the rest of the component (approval
                    queue, workflow progress, summary, pagination, table
                    filter, the save-draft and submit handlers);
    - [ApiCreate] : [createDemand] of [api.ts];
    - [Validation], [Email] : [utils/validation.ts];
    - [Rbac]      : [rbac/permissions.ts], [rbac/context.tsx] and the
                    [DemandAccess] component.

    JavaScript strings are sequences of UTF-16 code units.  The embedding
    covers the code units 0..255 (one Rocq [ascii] per code unit); on that
    range [toLowerCase] and [trim] are closed and are written out below as
    ECMAScript defines them. *)

From Stdlib Require Import ZArith Lia Bool Ascii String.
From stdpp Require Import gmap strings list fin_maps.

Local Open Scope string_scope.
Local Open Scope Z_scope.

(** ** JavaScript primitives used by the code *)

Module Js.

(** [String.prototype.toLowerCase] on code units 0..255: A-Z and the
    Latin-1 capitals U+00C0..U+00DE (without the multiplication sign
    U+00D7) move up by 32, everything else is kept. *)
Definition isUpper (c : ascii) : bool :=
  let n := N_of_ascii c in
  ((65 <=? n) && (n <=? 90) || (192 <=? n) && (n <=? 222) && negb (n =? 215))%N.

Definition lowerChar (c : ascii) : ascii :=
  if isUpper c then ascii_of_N (N_of_ascii c + 32) else c.

Fixpoint toLowerCase (s : string) : string :=
  match s with
  | EmptyString => EmptyString
  | String c r => String (lowerChar c) (toLowerCase r)
  end.

(** WhiteSpace and LineTerminator code units below 256: TAB, LF, VT, FF,
    CR, SP and NBSP. *)
Definition isWhite (c : ascii) : bool :=
  let n := N_of_ascii c in
  ((9 <=? n) && (n <=? 13) || (n =? 32) || (n =? 160))%N.

Fixpoint trimStart (s : string) : string :=
  match s with
  | EmptyString => EmptyString
  | String c r => if isWhite c then trimStart r else s
  end.

Fixpoint trimEnd (s : string) : string :=
  match s with
  | EmptyString => EmptyString
  | String c r =>
      match trimEnd r with
      | EmptyString => if isWhite c then EmptyString else String c EmptyString
      | r' => String c r'
      end
  end.

Definition trim (s : string) : string := trimEnd (trimStart s).

(** [a ?? b] on a value that is a string, or null / undefined ([None]). *)
Definition nullish (a : option string) (b : string) : string :=
  match a with Some s => s | None => b end.

(** [a || b] on such values: the empty string is falsy as well. *)
Definition or_else (a b : option string) : option string :=
  match a with
  | Some EmptyString => b
  | Some _ => a
  | None => b
  end.

Definition truthy (a : option string) : bool :=
  match a with
  | Some EmptyString => false
  | Some _ => true
  | None => false
  end.

(** [Array.prototype.findIndex]: the first index whose element satisfies
    the predicate, -1 when there is none. *)
Fixpoint findIndex {A} (p : A -> bool) (l : list A) : Z :=
  match l with
  | [] => -1
  | x :: r =>
      if p x then 0
      else let i := findIndex p r in if i <? 0 then -1 else i + 1
  end.

End Js.

(** ** workflow.ts *)

Module Workflow.

Record Stage := mkStage {
  id : Z;
  key : string;
  name : string;
  description : string
}.

Definition WORKFLOW_STAGES : list Stage := [
  mkStage 1 "Intake" "Demand Capture" "Logging of new business demand";
  mkStage 2 "Screening" "Demand Qualification"
    "Assess business need, initial validation for business alignment";
  mkStage 3 "Assessment" "Demand Assessment"
    "PMO or Portfolio team assesses feasibility, risk, urgency";
  mkStage 4 "Evaluation" "Demand Evaluation"
    "Deeper analysis of impact, value, risk, capacity";
  mkStage 5 "Authorization" "Demand Prioritization & Authorization"
    "Formal evaluation/prioritization by Demand Board/Service Portfolio Board";
  mkStage 6 "Business Case Development" "Business Case Development"
    "Build formal business case for strategic/complex demands";
  mkStage 7 "Service Portfolio Entry" "Service Portfolio Entry / Service Pipeline"
    "Approved demand moves into service/project portfolio";
  mkStage 8 "Service Implementation/Monitoring" "Service Implementation / Monitoring"
    "Demand delivered as project/change, status tracked";
  mkStage 9 "Closure" "Demand Closure" "Closure & Feedback"
].

Record WorkflowStage := mkWorkflowStage {
  ws_id : Z;
  ws_name : string;
  ws_description : string;
  completed : bool;
  current : bool
}.

(** [String(currentKey ?? "Intake").toLowerCase().trim()] *)
Definition normalizeKey (currentKey : option string) : string :=
  Js.trim (Js.toLowerCase (Js.nullish currentKey "Intake")).

(** [Math.max(0, WORKFLOW_STAGES.findIndex(s => s.key.toLowerCase() === key))] *)
Definition currentIndex (currentKey : option string) : Z :=
  Z.max 0
    (Js.findIndex
       (fun s => String.eqb (Js.toLowerCase (key s)) (normalizeKey currentKey))
       WORKFLOW_STAGES).

Definition buildWorkflow (currentKey : option string) : list WorkflowStage :=
  let currentIndex := currentIndex currentKey in
  imap (fun i s =>
          mkWorkflowStage (id s) (name s) (description s)
            (Z.of_nat i <? currentIndex)
            (Z.of_nat i =? currentIndex))
       WORKFLOW_STAGES.

End Workflow.

(** ** api.ts *)

Module Api.

(** The values a demand row or a patch can hold.  Numbers are the integers
    (progress, cost and ROI figures). *)
Inductive JsVal :=
| JUndef
| JNull
| JBool (b : bool)
| JNum (n : Z)
| JStr (s : string).

#[global] Instance JsVal_eq_dec : EqDecision JsVal.
Proof. solve_decision. Defined.

(** A row as the REST layer returns it, and a [Partial<Demand>] patch: a
    JavaScript object, i.e. a finite map from property names to values. *)
Abbreviation Row := (gmap string JsVal).

(** Property read [o.k]: an absent property reads as [undefined]. *)
Definition prop (o : Row) (k : string) : JsVal := default JUndef (o !! k).

(** [a ?? b] *)
Definition nullish (a b : JsVal) : JsVal :=
  match a with
  | JUndef | JNull => b
  | _ => a
  end.

(** [!v] *)
Definition falsy (v : JsVal) : bool :=
  match v with
  | JUndef | JNull => true
  | JBool b => negb b
  | JNum n => n =? 0
  | JStr s => String.eqb s ""
  end.

Definition isDigit (c : ascii) : bool :=
  let n := N_of_ascii c in ((48 <=? n) && (n <=? 57))%N.

Definition isDash (c : ascii) : bool := (N_of_ascii c =? 45)%N.

(** [/^\d{4}-\d{2}-\d{2}$/.test(s)] *)
Definition isIsoDate (s : string) : bool :=
  match s with
  | String y1 (String y2 (String y3 (String y4 (String d1
      (String m1 (String m2 (String d2 (String a1 (String a2 EmptyString))))))))) =>
      isDigit y1 && isDigit y2 && isDigit y3 && isDigit y4 && isDash d1 &&
      isDigit m1 && isDigit m2 && isDash d2 && isDigit a1 && isDigit a2
  | _ => false
  end.

(** The string form of a number or boolean never has the shape of a date,
    so only strings can pass the test. *)
Definition toUtcMidnight (dateLike : JsVal) : JsVal :=
  if falsy dateLike then JUndef
  else match dateLike with
       | JStr s => if isIsoDate s then JStr (s ++ "T00:00:00Z") else dateLike
       | _ => dateLike
       end.

(** [{ ...cur, ...patch }]: own properties of [patch] win. *)
Definition spread (cur patch : Row) : Row := patch ∪ cur.

(** The object literal PUT by [updateDemand], in source order. *)
Definition payload (id : string) (cur patch : Row) : list (string * JsVal) :=
  let m := spread cur patch in
  [ ("id", JStr id);
    ("title", nullish (prop m "title") (JStr "(Untitled)"));
    ("type", nullish (prop m "type") JNull);
    ("priority", nullish (prop m "priority") JNull);
    ("status", nullish (prop m "status") JNull);
    ("current_stage",
       nullish (nullish (prop m "current_stage") (prop m "currentStage")) JNull);
    ("description", nullish (prop m "description") JNull);
    ("requestor", nullish (prop m "requestor") JNull);
    ("department", nullish (prop m "department") JNull);
    ("expected_start_date",
       nullish (toUtcMidnight
                  (nullish (prop m "expected_start_date") (prop m "expectedStartDate")))
               JNull);
    ("expected_delivery",
       nullish (toUtcMidnight
                  (nullish (prop m "expected_delivery") (prop m "expectedDelivery")))
               JNull);
    ("business_justification", nullish (prop m "business_justification") JNull);
    ("expected_benefits", nullish (prop m "expected_benefits") JNull);
    ("risk_assessment", nullish (prop m "risk_assessment") JNull);
    ("success_criteria", nullish (prop m "success_criteria") JNull);
    ("estimated_cost", nullish (prop m "estimated_cost") JNull);
    ("budget_source", nullish (prop m "budget_source") JNull);
    ("cost_category", nullish (prop m "cost_category") JNull);
    ("roi", nullish (prop m "roi") JNull);
    ("progress", nullish (prop m "progress") JNull);
    ("created_date",
       nullish (nullish (prop cur "created_date") (prop cur "createdDate")) JNull) ].

(** Reading a property of the written object: [None] when the object has
    no such property. *)
Fixpoint field (k : string) (o : list (string * JsVal)) : option JsVal :=
  match o with
  | [] => None
  | (k', v) :: r => if String.eqb k' k then Some v else field k r
  end.

(** The request [updateDemand] sends: a PUT of the body to the item
    endpoint of the demand. *)
Inductive Request :=
| PUT (id : string) (body : list (string * JsVal)).

(** [updateDemand]: read the current row, merge, PUT the full payload.
    [getDemand] is the store read; [None] is a rejected read, which
    propagates before anything is written. *)
Definition updateDemand (getDemand : string -> option Row)
    (id : string) (patch : Row) : option Request :=
  match getDemand id with
  | Some cur => Some (PUT id (payload id cur patch))
  | None => None
  end.

End Api.

(** ** The DemandManagementSystem component *)

Module App.

Inductive Role := DemandRequestor | BUHead | ITPMO | DBR.

#[global] Instance Role_eq_dec : EqDecision Role.
Proof. solve_decision. Defined.

Inductive DemandStatus :=
| Draft | Submitted | UnderReview | Approved | Rejected | Completed.

#[global] Instance DemandStatus_eq_dec : EqDecision DemandStatus.
Proof. solve_decision. Defined.

Definition statusString (s : DemandStatus) : string :=
  match s with
  | Draft => "Draft"
  | Submitted => "Submitted"
  | UnderReview => "Under Review"
  | Approved => "Approved"
  | Rejected => "Rejected"
  | Completed => "Completed"
  end.

Record FlowEntry := mkFlow { stage : string; role : option Role }.

Definition STAGE_FLOW : list FlowEntry := [
  mkFlow "Intake" (Some DemandRequestor);
  mkFlow "Screening" (Some BUHead);
  mkFlow "Assessment" (Some ITPMO);
  mkFlow "Authorization" (Some DBR);
  mkFlow "Service Portfolio Entry" None
].

(** [STAGE_FLOW[i]].  Every index the code computes is in range (see
    [stageIndex_range]); the default entry is never reached. *)
Definition STAGE_FLOW_at (i : Z) : FlowEntry :=
  nth (Z.to_nat i) STAGE_FLOW (mkFlow "" None).

Definition stageIndex (stage0 : option string) : Z :=
  let i := Js.findIndex
             (fun s => String.eqb (stage s) (Js.nullish stage0 "Intake"))
             STAGE_FLOW in
  if 0 <=? i then i else 0.

Definition requiredRoleForStage (stage0 : option string) : option Role :=
  role (STAGE_FLOW_at (stageIndex stage0)).

Definition nextStageFrom (stage0 : option string) : string :=
  let i := stageIndex stage0 in
  stage (STAGE_FLOW_at (Z.min (i + 1) (Z.of_nat (length STAGE_FLOW) - 1))).

(** The fields of a [Demand] the workflow logic reads.  [None] is null or
    undefined. *)
Record Demand := mkDemand {
  id : string;
  status : DemandStatus;
  current_stage : option string;
  currentStage : option string
}.

Inductive DetailTab := details | comments | audit | approvals.

#[global] Instance DetailTab_eq_dec : EqDecision DetailTab.
Proof. solve_decision. Defined.

(** The component state the handlers close over. *)
Record UiState := mkUi {
  selectedDemand : option Demand;
  currentRole : Role;
  showModal : bool;
  detailTab : DetailTab
}.

(** [selectedDemand.current_stage || selectedDemand.currentStage] *)
Definition stageOf (d : Demand) : option string :=
  Js.or_else (current_stage d) (currentStage d).

Definition userCanActOnSelected (ui : UiState) : bool :=
  match selectedDemand ui with
  | Some d =>
      bool_decide (requiredRoleForStage (stageOf d) = Some (currentRole ui)) &&
      (bool_decide (status d = Submitted) || bool_decide (status d = UnderReview))
  | None => false
  end.

(** The patch [approveSelected] builds: new status and new stage. *)
Definition approvePatch (d : Demand) : DemandStatus * string :=
  let current :=
    match stageOf d with
    | Some s => if String.eqb s "" then "Intake" else s
    | None => "Intake"
    end in
  let i := stageIndex (Some current) in
  let isLastApprover :=
    Js.findIndex (fun s => String.eqb (stage s) "Authorization") STAGE_FLOW <=? i in
  let nextStage := nextStageFrom (Some current) in
  if isLastApprover then (Approved, nextStage) else (UnderReview, nextStage).

Definition approvePatchRow (d : Demand) : Api.Row :=
  let '(st, nextStage) := approvePatch d in
  {[ "status" := Api.JStr (statusString st);
     "current_stage" := Api.JStr nextStage ]}.

Definition rejectPatchRow : Api.Row :=
  {[ "status" := Api.JStr (statusString Rejected) ]}.

(** What a handler did with the store. *)
Inductive Outcome :=
| NoSelection                 (* [if (!selectedDemand) return;] *)
| UpdateFailed                (* the read inside [updateDemand] was rejected:
                                 caught, alerted, nothing written *)
| Issued (r : Api.Request).   (* the PUT was sent; what comes back is the
                                 server's *)

Definition approveSelected (getDemand : string -> option Api.Row)
    (ui : UiState) : Outcome :=
  match selectedDemand ui with
  | None => NoSelection
  | Some d =>
      match Api.updateDemand getDemand (id d) (approvePatchRow d) with
      | Some r => Issued r
      | None => UpdateFailed
      end
  end.

Definition rejectSelected (getDemand : string -> option Api.Row)
    (ui : UiState) : Outcome :=
  match selectedDemand ui with
  | None => NoSelection
  | Some d =>
      match Api.updateDemand getDemand (id d) rejectPatchRow with
      | Some r => Issued r
      | None => UpdateFailed
      end
  end.

(** The Approve / Reject controls of the approvals tab of the detail
    modal: rendered only under
    [(current_stage || currentStage) && userCanActOnSelected]. *)
Inductive Button := ApproveButton | RejectButton.

Definition approvalButtons (ui : UiState) : list Button :=
  match selectedDemand ui with
  | Some d =>
      if showModal ui && bool_decide (detailTab ui = approvals) &&
         Js.truthy (stageOf d) && userCanActOnSelected ui
      then [ApproveButton; RejectButton]
      else []
  | None => []
  end.

(** A click on a rendered control runs its handler. *)
Inductive click (getDemand : string -> option Api.Row) (ui : UiState) :
    Button -> Outcome -> Prop :=
| click_approve :
    ApproveButton ∈ approvalButtons ui ->
    click getDemand ui ApproveButton (approveSelected getDemand ui)
| click_reject :
    RejectButton ∈ approvalButtons ui ->
    click getDemand ui RejectButton (rejectSelected getDemand ui).

End App.

(** ** Derived views of the component: approval queue, flow progress,
       summary counters, pagination *)

Module Views.

(** [a ?? b] on a value that is a string, or null / undefined. *)
Definition coalesce (a b : option string) : option string :=
  match a with
  | Some _ => a
  | None => b
  end.

(** The rows of the approval queue tab: two chained filters, the second
    reading the stage as [d.current_stage ?? d.currentStage]. *)
Definition approvalQueue (currentRole : App.Role) (demands : list App.Demand) :
    list App.Demand :=
  List.filter
    (fun d => bool_decide
                (App.requiredRoleForStage
                   (coalesce (App.current_stage d) (App.currentStage d)) =
                 Some currentRole))
    (List.filter
       (fun d => bool_decide (App.status d = App.UnderReview) ||
                 bool_decide (App.status d = App.Submitted))
       demands).

(** The "Workflow Progress" list of the detail modal, one step per entry
    of [STAGE_FLOW]. *)
Record FlowStep := mkFlowStep {
  fs_stage : string;
  fs_role : option App.Role;
  fs_completed : bool;
  fs_isCurrent : bool
}.

Definition flowProgress (selectedDemand : App.Demand) : list FlowStep :=
  imap (fun idx s =>
          let current :=
            App.stageIndex (coalesce (App.current_stage selectedDemand)
                                     (App.currentStage selectedDemand)) in
          mkFlowStep (App.stage s) (App.role s)
            (Z.of_nat idx <? current) (Z.of_nat idx =? current))
       App.STAGE_FLOW.



(** [Array.prototype.slice(start, end)], negative indices counting from
    the end. *)
Definition slice {A} (l : list A) (start end_ : Z) : list A :=
  let len := Z.of_nat (length l) in
  let k := if start <? 0 then Z.max (len + start) 0 else Z.min start len in
  let final := if end_ <? 0 then Z.max (len + end_) 0 else Z.min end_ len in
  take (Z.to_nat (Z.max (final - k) 0)) (drop (Z.to_nat k) l).

(** [APP_CONFIG.DEFAULT_PAGE_SIZE] *)
Definition itemsPerPage : Z := 10.

(** [Math.ceil(filteredDemands.length / itemsPerPage)] *)
Definition totalPages {A} (filteredDemands : list A) : Z :=
  (Z.of_nat (length filteredDemands) + itemsPerPage - 1) / itemsPerPage.

Definition paginatedDemands {A} (filteredDemands : list A) (currentPage : Z) :
    list A :=
  let startIndex := (currentPage - 1) * itemsPerPage in
  let endIndex := startIndex + itemsPerPage in
  slice filteredDemands startIndex endIndex.

(** The Previous and Next buttons. *)
Definition prevPage (prev : Z) : Z := Z.max 1 (prev - 1).
Definition nextPage (totalPages prev : Z) : Z := Z.min totalPages (prev + 1).

End Views.

(** ** api.ts: createDemand *)

Module ApiCreate.
Import Api.

(** The object literal [createDemand] builds from the form, in source
    order, before the undefined values are removed. *)
Definition rawPayload (form : Row) : list (string * JsVal) :=
  [ ("title", nullish (prop form "title") (JStr ""));
    ("type", nullish (prop form "type") (JStr "Strategic"));
    ("priority", nullish (prop form "priority") (JStr "MEDIUM"));
    ("status", nullish (prop form "status") (JStr "Draft"));
    ("current_stage", nullish (prop form "current_stage") (JStr "Intake"));
    ("expected_delivery", toUtcMidnight (prop form "expected_delivery"));
    ("description", nullish (prop form "description") (JStr ""));
    ("requestor", nullish (prop form "requestor") (JStr "John Smith"));
    ("department", nullish (prop form "department") (JStr "IT Operations"));
    ("progress", nullish (prop form "progress") (JNum 0));
    ("business_justification", nullish (prop form "business_justification") JUndef);
    ("expected_benefits", nullish (prop form "expected_benefits") JUndef);
    ("risk_assessment", nullish (prop form "risk_assessment") JUndef);
    ("success_criteria", nullish (prop form "success_criteria") JUndef);
    ("estimated_cost", nullish (prop form "estimated_cost") JUndef);
    ("budget_source", nullish (prop form "budget_source") JUndef);
    ("cost_category", nullish (prop form "cost_category") JUndef);
    ("roi", nullish (prop form "roi") JUndef);
    ("expected_start_date", toUtcMidnight (prop form "expected_start_date")) ].

(** [payload[k] === undefined] *)
Definition isUndefined (v : JsVal) : bool :=
  match v with
  | JUndef => true
  | _ => false
  end.

(** The body [createDemand] POSTs: the literal with every property whose
    value is undefined deleted. *)
Definition payload (form : Row) : list (string * JsVal) :=
  List.filter (fun kv => negb (isUndefined (snd kv))) (rawPayload form).

End ApiCreate.

(** ** utils/validation.ts *)

Module Validation.

(** [APP_CONFIG] limits of constants/app.ts. *)
Definition MAX_DESCRIPTION_LENGTH : nat := 500.
Definition MAX_TITLE_LENGTH : nat := 200.

(** The replacement callback of [sanitizeInput]: the entity for each of
    the five characters the pattern lists (less-than, greater-than,
    double quote, single quote, ampersand), any other character
    unchanged. *)
Definition escapeChar (c : ascii) : string :=
  let n := N_of_ascii c in
  if (n =? 60)%N then "&lt;"
  else if (n =? 62)%N then "&gt;"
  else if (n =? 34)%N then "&quot;"
  else if (n =? 39)%N then "&#x27;"
  else if (n =? 38)%N then "&amp;"
  else String c EmptyString.

Fixpoint escape (s : string) : string :=
  match s with
  | EmptyString => EmptyString
  | String c r => escapeChar c ++ escape r
  end.

(** [sanitizeInput]: empty input gives the empty string; otherwise
    replace, [trim], [substring(0, 1000)]. *)
Definition sanitizeInput (input : string) : string :=
  if String.eqb input "" then ""
  else String.substring 0 1000 (Js.trim (escape input)).

(** The characters [/[^a-zA-Z0-9_-]/g] leaves in place. *)
Definition isIdentifierChar (c : ascii) : bool :=
  let n := N_of_ascii c in
  ((97 <=? n) && (n <=? 122) || (65 <=? n) && (n <=? 90) ||
   (48 <=? n) && (n <=? 57) || (n =? 95) || (n =? 45))%N.

Fixpoint keepIdentifierChars (s : string) : string :=
  match s with
  | EmptyString => EmptyString
  | String c r =>
      if isIdentifierChar c then String c (keepIdentifierChars r)
      else keepIdentifierChars r
  end.

Definition sanitizeIdentifier (input : string) : string :=
  if String.eqb input "" then ""
  else String.substring 0 50 (keepIdentifierChars input).

(** [{ valid: boolean; error?: string }] *)
Record Result := mkResult { valid : bool; error : option string }.

Definition ok : Result := mkResult true None.
Definition invalid (msg : string) : Result := mkResult false (Some msg).

Definition validateTitle (title : string) : Result :=
  if String.eqb title "" || (String.length (Js.trim title) =? 0)%nat
  then invalid "Title is required"
  else if (MAX_TITLE_LENGTH <? String.length title)%nat
  then invalid "Title must be less than 200 characters"
  else ok.

Definition validateDescription (description : string) : Result :=
  if negb (String.eqb description "") &&
     (MAX_DESCRIPTION_LENGTH <? String.length description)%nat
  then invalid "Description must be less than 500 characters"
  else ok.

(** [Array.prototype.includes] on strings. *)
Definition includes (l : list string) (x : string) : bool :=
  existsb (String.eqb x) l.

Definition validTypes : list string :=
  ["Strategic"; "Operational"; "Support"; "Compliance"; "Innovation"].

Definition validateDemandType (type : string) : Result :=
  if String.eqb type "" || negb (includes validTypes type)
  then invalid "Invalid demand type"
  else ok.

Definition validPriorities : list string := ["CRITICAL"; "HIGH"; "MEDIUM"; "LOW"].

Definition validatePriority (priority : string) : Result :=
  if String.eqb priority "" || negb (includes validPriorities priority)
  then invalid "Invalid priority level"
  else ok.

(** The four fields [validateDemand] reads of its argument. *)
Record DemandInput := mkInput {
  title : string;
  description : string;
  type : string;
  priority : string
}.

Record DemandValidation := mkValidation { all_valid : bool; errors : list string }.

(** [if (!r.valid) errors.push(r.error!)] *)
Definition pushError (r : Result) (errors : list string) : list string :=
  if valid r then errors
  else errors ++ [match error r with Some e => e | None => "" end].

Definition validateDemand (demand : DemandInput) : DemandValidation :=
  let errors := [] in
  let errors := pushError (validateTitle (title demand)) errors in
  let errors := pushError (validateDescription (description demand)) errors in
  let errors := pushError (validateDemandType (type demand)) errors in
  let errors := pushError (validatePriority (priority demand)) errors in
  mkValidation (length errors =? 0)%nat errors.

End Validation.

(** ** utils/validation.ts: validateEmail *)

Module Email.

(** The regular expressions the pattern of [validateEmail] is built from:
    character classes, sequence and repetition. *)
Inductive Regex :=
| Never
| Empty
| Class (p : ascii -> bool)
| Seq (a b : Regex)
| Star (a : Regex).

(** [a+] *)
Definition Plus (a : Regex) : Regex := Seq a (Star a).

Fixpoint nullable (r : Regex) : bool :=
  match r with
  | Never => false
  | Empty => true
  | Class _ => false
  | Seq a b => nullable a && nullable b
  | Star _ => true
  end.

(** What is left of [r] after reading [c], as a list of alternatives. *)
Fixpoint derive (c : ascii) (r : Regex) : list Regex :=
  match r with
  | Never => []
  | Empty => []
  | Class p => if p c then [Empty] else []
  | Seq a b =>
      (map (fun a' => Seq a' b) (derive c a) ++
       (if nullable a then derive c b else []))%list
  | Star a => map (fun a' => Seq a' (Star a)) (derive c a)
  end.

(** [/^r$/.test(s)], reading [s] character by character. *)
Fixpoint test (rs : list Regex) (s : string) : bool :=
  match s with
  | EmptyString => existsb nullable rs
  | String c s' => test (flat_map (derive c) rs) s'
  end.

(** [[^\s@]] *)
Definition notSpaceNorAt (c : ascii) : bool :=
  negb (Js.isWhite c) && negb (N_of_ascii c =? 64)%N.

Definition isAt (c : ascii) : bool := (N_of_ascii c =? 64)%N.
Definition isDot (c : ascii) : bool := (N_of_ascii c =? 46)%N.

(** [/^[^\s@]+@[^\s@]+\.[^\s@]+$/] *)
Definition emailRegex : Regex :=
  Seq (Plus (Class notSpaceNorAt))
    (Seq (Class isAt)
       (Seq (Plus (Class notSpaceNorAt))
          (Seq (Class isDot) (Plus (Class notSpaceNorAt))))).

Definition validateEmail (email : string) : Validation.Result :=
  if String.eqb email "" then Validation.ok
  else if negb (test [emailRegex] email)
  then Validation.invalid "Invalid email format"
  else Validation.ok.

End Email.

(** ** The submit form of the component: handleSaveDraft, handleSubmitDemand *)

Module Submit.
Import Api.

(** The text fields of [formData] (the attachment list is not read by the
    two handlers). *)
Record FormData := mkForm {
  title : string;
  type : string;
  priority : string;
  description : string;
  expectedStartDate : string;
  expectedCompletionDate : string;
  businessJustification : string;
  expectedBenefits : string;
  riskAssessment : string;
  successCriteria : string;
  estimatedCost : string;
  budgetSource : string;
  costCategory : string;
  roi : string
}.

(** [s || undefined] *)
Definition orUndefined (s : string) : JsVal :=
  if String.eqb s "" then JUndef else JStr s.

(** [s || d] *)
Definition orDefault (s d : string) : string :=
  if String.eqb s "" then d else s.

Inductive Outcome :=
| ValidationFailed (errors : list string)      (* alerted, nothing sent *)
| Posted (body : list (string * JsVal)).       (* the body of the POST *)

Section WithNumber.

(** [Number(text)], the numeric value of a form field. *)
Variable Number : string -> JsVal.

(** [text !== "" ? Number(text) : undefined] *)
Definition numberOrUndefined (s : string) : JsVal :=
  if negb (String.eqb s "") then Number s else JUndef.

(** The object [handleSaveDraft] passes to [createDemand]. *)
Definition draftForm (formData : FormData) (safeUserName : string) :
    list (string * JsVal) :=
  [ ("title", JStr (orDefault (title formData) "(Untitled)"));
    ("type", JStr (orDefault (type formData) "Strategic"));
    ("priority", JStr (orDefault (priority formData) "LOW"));
    ("status", JStr "Draft");
    ("current_stage", JStr "Intake");
    ("expected_delivery", orUndefined (expectedCompletionDate formData));
    ("expected_start_date", orUndefined (expectedStartDate formData));
    ("business_justification", orUndefined (businessJustification formData));
    ("expected_benefits", orUndefined (expectedBenefits formData));
    ("risk_assessment", orUndefined (riskAssessment formData));
    ("success_criteria", orUndefined (successCriteria formData));
    ("estimated_cost", numberOrUndefined (estimatedCost formData));
    ("budget_source", orUndefined (budgetSource formData));
    ("cost_category", orUndefined (costCategory formData));
    ("roi", numberOrUndefined (roi formData));
    ("description", JStr (description formData));
    ("requestor", JStr safeUserName);
    ("department", JStr "Information Technology");
    ("progress", JNum 0) ].

Definition handleSaveDraft (formData : FormData) (safeUserName : string) : Outcome :=
  Posted (ApiCreate.payload (list_to_map (draftForm formData safeUserName))).

(** The object [handleSubmitDemand] passes to [createDemand]. *)
Definition submitForm (formData : FormData) (currentUserName : string) :
    list (string * JsVal) :=
  [ ("title", JStr (Validation.sanitizeInput (title formData)));
    ("type", JStr (orDefault (type formData) "Strategic"));
    ("priority", JStr (orDefault (priority formData) "MEDIUM"));
    ("status", JStr "Under Review");
    ("current_stage", JStr "Screening");
    ("expected_delivery", orUndefined (expectedCompletionDate formData));
    ("expected_start_date", orUndefined (expectedStartDate formData));
    ("business_justification",
       orUndefined (Validation.sanitizeInput
                      (orDefault (businessJustification formData) "")));
    ("expected_benefits",
       orUndefined (Validation.sanitizeInput (orDefault (expectedBenefits formData) "")));
    ("risk_assessment",
       orUndefined (Validation.sanitizeInput (orDefault (riskAssessment formData) "")));
    ("success_criteria",
       orUndefined (Validation.sanitizeInput (orDefault (successCriteria formData) "")));
    ("estimated_cost", numberOrUndefined (estimatedCost formData));
    ("budget_source", orUndefined (budgetSource formData));
    ("cost_category", orUndefined (costCategory formData));
    ("roi", numberOrUndefined (roi formData));
    ("description", JStr (Validation.sanitizeInput (description formData)));
    ("requestor", JStr currentUserName);
    ("department", JStr "Information Technology");
    ("progress", JNum 0) ].

Definition handleSubmitDemand (formData : FormData) (currentUserName : string) :
    Outcome :=
  let validation :=
    Validation.validateDemand
      (Validation.mkInput (title formData) (description formData)
         (type formData) (priority formData)) in
  if negb (Validation.all_valid validation)
  then ValidationFailed (Validation.errors validation)
  else Posted (ApiCreate.payload (list_to_map (submitForm formData currentUserName))).

End WithNumber.

End Submit.

(** ** rbac: permissions.ts, context.tsx, the access components *)

Module Rbac.

Inductive Permission :=
| demand_create | demand_read | demand_update | demand_delete
| demand_approve | demand_reject | demand_assign
| reports_view | reports_export
| admin_users | admin_system.

#[global] Instance Permission_eq_dec : EqDecision Permission.
Proof. solve_decision. Defined.

Inductive Role := DemandRequestor | BUHead | ITPMO | DBR | Admin.

#[global] Instance Role_eq_dec : EqDecision Role.
Proof. solve_decision. Defined.

Record RolePermissions := mkRolePermissions {
  role : Role;
  permissions : list Permission;
  inherits : option (list Role)
}.

Definition ROLE_PERMISSIONS : list RolePermissions := [
  mkRolePermissions DemandRequestor
    [demand_create; demand_read; demand_update] None;
  mkRolePermissions BUHead
    [demand_read; demand_approve; demand_reject; reports_view]
    (Some [DemandRequestor]);
  mkRolePermissions ITPMO
    [demand_read; demand_approve; demand_reject; demand_assign;
     reports_view; reports_export]
    (Some [BUHead]);
  mkRolePermissions DBR
    [demand_read; demand_approve; demand_reject; reports_view; reports_export]
    (Some [ITPMO]);
  mkRolePermissions Admin
    [demand_create; demand_read; demand_update; demand_delete;
     demand_approve; demand_reject; demand_assign;
     reports_view; reports_export; admin_users; admin_system]
    None
].

(** [[...new Set(xs)]]: the first occurrence of each element, in order. *)
Definition unique (xs : list Permission) : list Permission :=
  fold_left (fun acc x => if bool_decide (x ∈ acc) then acc else (acc ++ [x])%list) xs [].

(** [getRolePermissions] recurses through [inherits]; the recursion is
    bounded by fuel, [None] meaning the fuel ran out. *)
Fixpoint getRolePermissionsFuel (fuel : nat) (r : Role) : option (list Permission) :=
  match fuel with
  | O => None
  | S fuel =>
      match List.find (fun c => bool_decide (role c = r)) ROLE_PERMISSIONS with
      | None => Some []
      | Some roleConfig =>
          let inherited :=
            match inherits roleConfig with
            | Some rs =>
                fold_left
                  (fun acc inheritedRole =>
                     match acc, getRolePermissionsFuel fuel inheritedRole with
                     | Some ps, Some qs => Some (ps ++ qs)%list
                     | _, _ => None
                     end)
                  rs (Some (permissions roleConfig))
            | None => Some (permissions roleConfig)
            end in
          match inherited with
          | Some ps => Some (unique ps)
          | None => None
          end
      end
  end.

(** One unit of fuel per entry of the table is enough
    (see [getRolePermissions_fuel]). *)
Definition getRolePermissions (r : Role) : list Permission :=
  match getRolePermissionsFuel (length ROLE_PERMISSIONS) r with
  | Some ps => ps
  | None => []
  end.

Definition hasPermission (userRoles : list Role) (permission : Permission) : bool :=
  existsb (fun r => bool_decide (permission ∈ getRolePermissions r)) userRoles.

Definition hasAnyPermission (userRoles : list Role) (ps : list Permission) : bool :=
  existsb (fun p => hasPermission userRoles p) ps.

Definition hasAllPermissions (userRoles : list Role) (ps : list Permission) : bool :=
  forallb (fun p => hasPermission userRoles p) ps.

(** [mapAADRolesToAppRoles]: the argument is read through
    [aadUser?.roles] only; [None] is a missing [roles] property. *)
Definition mapAADRolesToAppRoles (aadRoles : option (list string)) : list Role :=
  let includes x :=
    match aadRoles with
    | Some l => existsb (String.eqb x) l
    | None => false
    end in
  let noLength :=
    match aadRoles with
    | Some l => (length l =? 0)%nat
    | None => true
    end in
  let roles := [] in
  let roles := if includes "DemandRequestor" || noLength
               then (roles ++ [DemandRequestor])%list else roles in
  let roles := if includes "BUHead" then (roles ++ [BUHead])%list else roles in
  let roles := if includes "ITPMO" then (roles ++ [ITPMO])%list else roles in
  let roles := if includes "DBR" then (roles ++ [DBR])%list else roles in
  let roles := if includes "Admin" then (roles ++ [Admin])%list else roles in
  if (0 <? length roles)%nat then roles else [DemandRequestor].

(** What [useAADUser] returns, as far as the provider reads it.  The
    object has no [roles] property. *)
Record AADUser := mkAADUser {
  aad_name : string;
  aad_email : string;
  aad_isAuthenticated : bool
}.

Record Context := mkContext {
  id : string;
  name : string;
  email : string;
  roles : list Role;
  isAuthenticated : bool
}.

(** The context value [RBACProvider] builds. *)
Definition userContext (aadUser : AADUser) : Context :=
  let roles := if aad_isAuthenticated aadUser
               then mapAADRolesToAppRoles None else [] in
  mkContext
    (if String.eqb (aad_email aadUser) "" then "anonymous" else aad_email aadUser)
    (if String.eqb (aad_name aadUser) "" then "Unknown User" else aad_name aadUser)
    (aad_email aadUser)
    roles
    (aad_isAuthenticated aadUser).

(** The two fields of a demand the access checks read. *)
Record DemandView := mkDemandView {
  requestor : option string;
  status : App.DemandStatus
}.

Definition isOwn (context : Context) (demand : DemandView) : bool :=
  bool_decide (requestor demand = Some (name context)) ||
  bool_decide (requestor demand = Some (email context)).

Definition canAccessDemand (context : Context) (demand : DemandView) : bool :=
  if hasPermission (roles context) admin_system then true
  else if isOwn context demand then true
  else if hasPermission (roles context) demand_approve then true
  else false.

Definition canModifyDemand (context : Context) (demand : DemandView) : bool :=
  if hasPermission (roles context) admin_system then true
  else if isOwn context demand && bool_decide (status demand = App.Draft)
  then hasPermission (roles context) demand_update
  else false.

(** The [DemandAccess] component: whether the children are rendered. *)
Inductive Action := view | edit | delete | approve.

Definition demandAccess (rbac : Context) (demand : DemandView) (action : Action) : bool :=
  match action with
  | view => canAccessDemand rbac demand
  | edit => canModifyDemand rbac demand
  | delete => canModifyDemand rbac demand && hasPermission (roles rbac) demand_delete
  | approve =>
      hasPermission (roles rbac) demand_approve &&
      (bool_decide (status demand = App.Submitted) ||
       bool_decide (status demand = App.UnderReview))
  end.

End Rbac.

(** ** The demand table of the component: search and filters *)

Module Listing.

(** A demand as the table reads it: the workflow fields, and title, type
    and description. *)
Record Row := mkRow {
  demand : App.Demand;
  title : string;
  type : string;
  description : option string
}.

(** [String.prototype.startsWith] and [String.prototype.includes]. *)
Fixpoint startsWith (s prefix : string) : bool :=
  match prefix, s with
  | EmptyString, _ => true
  | String _ _, EmptyString => false
  | String a p', String b s' => Ascii.eqb a b && startsWith s' p'
  end.

Fixpoint includes (s needle : string) : bool :=
  startsWith s needle ||
  match s with
  | EmptyString => false
  | String _ s' => includes s' needle
  end.

(** [filteredDemands].  [statusFilter] is a status or the empty string
    ([None]); [typeFilter] is a type or the empty string. *)
Definition filteredDemands (searchTerm : string)
    (statusFilter : option App.DemandStatus) (typeFilter : string)
    (demands : list Row) : list Row :=
  List.filter
    (fun d =>
       let s := Js.toLowerCase searchTerm in
       let matchesSearch :=
         includes (Js.toLowerCase (title d)) s ||
         includes (Js.toLowerCase (App.id (demand d))) s ||
         includes (Js.toLowerCase
                     (match description d with
                      | Some t => t
                      | None => ""
                      end)) s in
       let matchesStatus :=
         match statusFilter with
         | None => true
         | Some st => bool_decide (App.status (demand d) = st)
         end in
       let matchesType := String.eqb typeFilter "" || String.eqb (type d) typeFilter in
       matchesSearch && matchesStatus && matchesType)
    demands.

End Listing.

(** ** Vocabulary of the statements *)

Module Spec.

(** The merged value of a property: the patch's when the patch has the
    property, the stored one otherwise. *)
Definition merged (cur patch : Api.Row) (k : string) : Api.JsVal :=
  match patch !! k with
  | Some v => v
  | None => Api.prop cur k
  end.

(** The fields [updateDemand] copies from the merged row unchanged. *)
Definition plainFields : list string :=
  [ "type"; "priority"; "status"; "description"; "requestor"; "department";
    "business_justification"; "expected_benefits"; "risk_assessment";
    "success_criteria"; "estimated_cost"; "budget_source"; "cost_category";
    "roi"; "progress" ].

(** Properties the object [updateDemand] writes always has. *)
Definition payloadFields : list string :=
  [ "id"; "title"; "type"; "priority"; "status"; "current_stage";
    "description"; "requestor"; "department"; "expected_start_date";
    "expected_delivery"; "business_justification"; "expected_benefits";
    "risk_assessment"; "success_criteria"; "estimated_cost"; "budget_source";
    "cost_category"; "roi"; "progress"; "created_date" ].

(** The fields [createDemand] always sends, and those it sends only when
    the form has a value for them. *)
Definition createDefaulted : list string :=
  [ "title"; "type"; "priority"; "status"; "current_stage"; "description";
    "requestor"; "department"; "progress" ].

Definition createOptional : list string :=
  [ "business_justification"; "expected_benefits"; "risk_assessment";
    "success_criteria"; "estimated_cost"; "budget_source"; "cost_category";
    "roi" ].

(** Every character of the string satisfies the test. *)
Fixpoint allChars (P : ascii -> bool) (s : string) : bool :=
  match s with
  | EmptyString => true
  | String c r => P c && allChars P r
  end.

(** Not one of the four characters less-than, greater-than, double quote,
    single quote. *)
Definition notMarkup (c : ascii) : bool :=
  let n := N_of_ascii c in
  negb ((n =? 60) || (n =? 62) || (n =? 34) || (n =? 39))%N.

(** Not one of the five characters [sanitizeInput] replaces. *)
Definition notEscaped (c : ascii) : bool :=
  let n := N_of_ascii c in
  negb ((n =? 60) || (n =? 62) || (n =? 34) || (n =? 39) || (n =? 38))%N.

(** The name of an application role in the identity provider's role
    claim, as [mapAADRolesToAppRoles] spells it. *)
Definition aadName (r : Rbac.Role) : string :=
  match r with
  | Rbac.DemandRequestor => "DemandRequestor"
  | Rbac.BUHead => "BUHead"
  | Rbac.ITPMO => "ITPMO"
  | Rbac.DBR => "DBR"
  | Rbac.Admin => "Admin"
  end.

(** The words a regular expression matches. *)
Inductive matches : Email.Regex -> string -> Prop :=
| m_empty : matches Email.Empty ""
| m_class p c : p c = true -> matches (Email.Class p) (String c "")
| m_seq a b s t : matches a s -> matches b t -> matches (Email.Seq a b) (s ++ t)
| m_star_nil a : matches (Email.Star a) ""
| m_star_more a s t :
    matches a s -> matches (Email.Star a) t -> matches (Email.Star a) (s ++ t).

End Spec.

(** * Properties *)

(** ** Array search *)

Section FindIndex.
Context {A : Type} (p : A -> bool).

Lemma findIndex_range (l : list A) :
  -1 <= Js.findIndex p l < Z.of_nat (length l).
Proof.
  induction l as [|x r IH]; cbn [Js.findIndex length].
  - lia.
  - destruct (p x); [lia|].
    destruct (Z.ltb_spec (Js.findIndex p r) 0); lia.
Qed.

Lemma findIndex_none (l : list A) :
  (forall x, x ∈ l -> p x = false) -> Js.findIndex p l = -1.
Proof.
  induction l as [|x r IH]; intros H; cbn [Js.findIndex]; [reflexivity|].
  rewrite (H x) by constructor.
  rewrite IH by (intros y Hy; apply H; now constructor).
  reflexivity.
Qed.
End FindIndex.

(** ** The approval flow *)

Module FlowFacts.
Import App.

(** Case analysis on the five exact comparisons of [stageIndex]. *)
Lemma stageIndex_cases (k : option string) :
  let s := Js.nullish k "Intake" in
  (s = "Intake" /\ stageIndex k = 0) \/
  (s = "Screening" /\ stageIndex k = 1) \/
  (s = "Assessment" /\ stageIndex k = 2) \/
  (s = "Authorization" /\ stageIndex k = 3) \/
  (s = "Service Portfolio Entry" /\ stageIndex k = 4) \/
  ((forall e, e ∈ STAGE_FLOW -> stage e <> s) /\ stageIndex k = 0).
Proof.
  unfold stageIndex. generalize (Js.nullish k "Intake"). intros s. cbn zeta.
  unfold STAGE_FLOW, Js.findIndex. cbn [stage].
  destruct (String.eqb_spec "Intake" s) as [<-|H0]; [left; split; reflexivity|].
  destruct (String.eqb_spec "Screening" s) as [<-|H1];
    [right; left; split; reflexivity|].
  destruct (String.eqb_spec "Assessment" s) as [<-|H2];
    [do 2 right; left; split; reflexivity|].
  destruct (String.eqb_spec "Authorization" s) as [<-|H3];
    [do 3 right; left; split; reflexivity|].
  destruct (String.eqb_spec "Service Portfolio Entry" s) as [<-|H4];
    [do 4 right; left; split; reflexivity|].
  do 5 right. split; [|reflexivity].
  intros e He. repeat (apply elem_of_cons in He as [ ->|He]); cbn [stage];
    try assumption.
  now apply elem_of_nil in He.
Qed.

Lemma stageIndex_range (k : option string) :
  0 <= stageIndex k < Z.of_nat (length STAGE_FLOW).
Proof.
  cbn [length STAGE_FLOW].
  destruct (stageIndex_cases k) as [[_ ->]|[[_ ->]|[[_ ->]|[[_ ->]|[[_ ->]|[_ ->]]]]]];
    lia.
Qed.

Lemma flow_entry_cases (e : FlowEntry) :
  e ∈ STAGE_FLOW ->
  e = mkFlow "Intake" (Some DemandRequestor) \/
  e = mkFlow "Screening" (Some BUHead) \/
  e = mkFlow "Assessment" (Some ITPMO) \/
  e = mkFlow "Authorization" (Some DBR) \/
  e = mkFlow "Service Portfolio Entry" None.
Proof.
  intros He. unfold STAGE_FLOW in He.
  repeat (apply elem_of_cons in He as [ ->|He]); auto 6.
  now apply elem_of_nil in He.
Qed.

End FlowFacts.

(** ** The written row *)

Module PayloadFacts.
Import Api Spec.

Lemma prop_spread_patch (cur patch : Row) k v :
  patch !! k = Some v -> prop (spread cur patch) k = v.
Proof.
  intros H. unfold prop, spread.
  now rewrite (lookup_union_Some_l patch cur k v H).
Qed.

Lemma prop_spread_cur (cur patch : Row) k :
  patch !! k = None -> prop (spread cur patch) k = prop cur k.
Proof.
  intros H. unfold prop, spread. now rewrite lookup_union_r.
Qed.

Lemma prop_spread (cur patch : Row) k :
  prop (spread cur patch) k = merged cur patch k.
Proof.
  unfold merged. destruct (patch !! k) as [v|] eqn:E.
  - now apply prop_spread_patch.
  - now apply prop_spread_cur.
Qed.

Lemma field_status id cur patch :
  field "status" (payload id cur patch) =
    Some (nullish (merged cur patch "status") JNull).
Proof. rewrite <- prop_spread. reflexivity. Qed.

Lemma field_current_stage id cur patch :
  field "current_stage" (payload id cur patch) =
    Some (nullish (nullish (merged cur patch "current_stage")
                           (merged cur patch "currentStage")) JNull).
Proof. rewrite <- !prop_spread. reflexivity. Qed.

End PayloadFacts.

(** ** The guard *)

(** C2.  The guard [userCanActOnSelected] holds for a selected demand [d]
    and acting role [r] exactly when [r] is the role required at the
    demand's stage and the status is Submitted or Under Review; so it is
    false for Draft, Approved, Rejected and Completed demands whatever the
    role. *)
Theorem userCanActOnSelected_iff (d : App.Demand) (r : App.Role)
    (sm : bool) (dt : App.DetailTab) :
  (App.userCanActOnSelected (App.mkUi (Some d) r sm dt) = true <->
     App.requiredRoleForStage (App.stageOf d) = Some r /\
     (App.status d = App.Submitted \/ App.status d = App.UnderReview)) /\
  (App.status d = App.Draft \/ App.status d = App.Approved \/
   App.status d = App.Rejected \/ App.status d = App.Completed ->
     App.userCanActOnSelected (App.mkUi (Some d) r sm dt) = false).
Proof.
  unfold App.userCanActOnSelected. cbn [App.selectedDemand App.currentRole].
  split.
  - rewrite andb_true_iff, orb_true_iff, !bool_decide_eq_true. reflexivity.
  - intros Hst. apply andb_false_iff. right.
    apply orb_false_iff.
    split; apply bool_decide_eq_false; intros E; rewrite E in Hst;
      destruct Hst as [H|[H|[H|H]]]; discriminate H.
Qed.

Lemma userCanActOnSelected_iff_witness :
  App.userCanActOnSelected
    (App.mkUi (Some (App.mkDemand "D-7" App.Draft (Some "Intake") None))
       App.DemandRequestor true App.approvals) = false.
Proof.
  apply (proj2 (userCanActOnSelected_iff
                  (App.mkDemand "D-7" App.Draft (Some "Intake") None)
                  App.DemandRequestor true App.approvals)).
  left. reflexivity.
Defined.

(** ** Stage advance *)

(** C4.  From every entry of the approval flow except the last one,
    [nextStageFrom] moves the resolved index up by exactly one; and for
    every input whatsoever the stage it returns is an entry of the flow
    whose index is the resolved index plus one, capped at the index of the
    last entry. *)
Theorem nextStageFrom_advance_and_clamp :
  (forall e, e ∈ App.STAGE_FLOW ->
     App.stage e <> "Service Portfolio Entry" ->
     App.stageIndex (Some (App.nextStageFrom (Some (App.stage e)))) =
       App.stageIndex (Some (App.stage e)) + 1) /\
  (forall k : option string,
     App.stageIndex (Some (App.nextStageFrom k)) <=
       Z.of_nat (length App.STAGE_FLOW) - 1 /\
     App.stageIndex (Some (App.nextStageFrom k)) =
       Z.min (App.stageIndex k + 1) (Z.of_nat (length App.STAGE_FLOW) - 1) /\
     exists e, e ∈ App.STAGE_FLOW /\ App.nextStageFrom k = App.stage e).
Proof.
  split.
  - intros e He Hne.
    destruct (FlowFacts.flow_entry_cases e He) as [ ->|[ ->|[ ->|[ ->| ->]]]];
      try reflexivity.
    now contradict Hne.
  - intros k. split; [|split].
    + pose proof (FlowFacts.stageIndex_range (Some (App.nextStageFrom k))). lia.
    + unfold App.nextStageFrom.
      destruct (FlowFacts.stageIndex_cases k)
        as [[_ ->]|[[_ ->]|[[_ ->]|[[_ ->]|[[_ ->]|[_ ->]]]]]]; reflexivity.
    + unfold App.nextStageFrom.
      destruct (FlowFacts.stageIndex_cases k)
        as [[_ ->]|[[_ ->]|[[_ ->]|[[_ ->]|[[_ ->]|[_ ->]]]]]];
        cbn; eexists; (split; [|reflexivity]); unfold App.STAGE_FLOW;
        repeat first [apply list_elem_of_here | apply list_elem_of_further].
Qed.

Lemma nextStageFrom_advance_and_clamp_witness :
  App.stageIndex (Some (App.nextStageFrom (Some "Assessment"))) =
    App.stageIndex (Some "Assessment") + 1.
Proof.
  apply (proj1 nextStageFrom_advance_and_clamp
           (App.mkFlow "Assessment" (Some App.ITPMO))).
  - unfold App.STAGE_FLOW. do 2 apply list_elem_of_further. apply list_elem_of_here.
  - cbn. discriminate.
Defined.

(** C10.  The four stage keys of the nine-entry table that the
    five-entry approval flow does not list (Evaluation, Business Case
    Development, Service Implementation/Monitoring, Closure) resolve to
    index 0 in the approval logic: required role Demand Requestor, next
    stage Screening, exactly as for Intake.  These four are all the keys of
    the table missing from the flow. *)
Theorem display_only_stage_is_intake :
  (forall k, k ∈ ["Evaluation"; "Business Case Development";
                  "Service Implementation/Monitoring"; "Closure"] ->
     (k ∈ map Workflow.key Workflow.WORKFLOW_STAGES) /\
     (k ∉ map App.stage App.STAGE_FLOW) /\
     App.stageIndex (Some k) = 0 /\
     App.requiredRoleForStage (Some k) = Some App.DemandRequestor /\
     App.nextStageFrom (Some k) = "Screening" /\
     App.requiredRoleForStage (Some k) = App.requiredRoleForStage (Some "Intake") /\
     App.nextStageFrom (Some k) = App.nextStageFrom (Some "Intake")) /\
  (forall s, s ∈ Workflow.WORKFLOW_STAGES ->
     Workflow.key s ∉ map App.stage App.STAGE_FLOW ->
     Workflow.key s ∈ ["Evaluation"; "Business Case Development";
                       "Service Implementation/Monitoring"; "Closure"]).
Proof.
  split.
  - intros k Hk.
    repeat (apply elem_of_cons in Hk as [ ->|Hk]);
      try (now apply elem_of_nil in Hk);
      (split; [cbn; repeat first [apply list_elem_of_here | apply list_elem_of_further]|]);
      (split; [cbn; intros H;
               repeat (apply elem_of_cons in H as [H|H]; [discriminate H|]);
               now apply elem_of_nil in H|]);
      repeat split; reflexivity.
  - intros s Hs Hn. unfold Workflow.WORKFLOW_STAGES in Hs.
    repeat (apply elem_of_cons in Hs as [ ->|Hs]);
      try (now apply elem_of_nil in Hs);
      cbn [Workflow.key] in *;
      try (repeat first [apply list_elem_of_here | apply list_elem_of_further]);
      exfalso; apply Hn; cbn;
      repeat first [apply list_elem_of_here | apply list_elem_of_further].
Qed.

Lemma display_only_stage_is_intake_witness :
  App.stageIndex (Some "Evaluation") = 0 /\
  App.requiredRoleForStage (Some "Closure") = Some App.DemandRequestor.
Proof.
  split.
  - apply (proj1 display_only_stage_is_intake "Evaluation").
    apply list_elem_of_here.
  - apply (proj1 display_only_stage_is_intake "Closure").
    do 3 apply list_elem_of_further. apply list_elem_of_here.
Defined.

(** ** Approve *)

(** C3.  Approving a demand at Authorization (the last approver's stage)
    gives status Approved and stage Service Portfolio Entry; approving a
    demand at a flow stage before Authorization gives status Under Review
    and the next stage of the flow (Screening moves to Assessment).  When
    the stored row can be read, these two values are what the PUT carries
    as [status] and [current_stage]. *)
Theorem approve_transition :
  (forall d, App.stageOf d = Some "Authorization" ->
     App.approvePatch d = (App.Approved, "Service Portfolio Entry")) /\
  (forall d e, e ∈ App.STAGE_FLOW ->
     App.stageOf d = Some (App.stage e) ->
     App.stageIndex (Some (App.stage e)) < App.stageIndex (Some "Authorization") ->
     App.approvePatch d =
       (App.UnderReview,
        App.stage (App.STAGE_FLOW_at (App.stageIndex (Some (App.stage e)) + 1)))) /\
  (forall d, App.stageOf d = Some "Screening" ->
     App.approvePatch d = (App.UnderReview, "Assessment")) /\
  (forall getDemand ui d cur,
     App.selectedDemand ui = Some d ->
     getDemand (App.id d) = Some cur ->
     exists body,
       App.approveSelected getDemand ui = App.Issued (Api.PUT (App.id d) body) /\
       Api.field "status" body =
         Some (Api.JStr (App.statusString (fst (App.approvePatch d)))) /\
       Api.field "current_stage" body =
         Some (Api.JStr (snd (App.approvePatch d)))).
Proof.
  split; [|split; [|split]].
  - intros d Hd. unfold App.approvePatch. rewrite Hd. reflexivity.
  - intros d e He Hd Hlt. unfold App.approvePatch. rewrite Hd.
    destruct (FlowFacts.flow_entry_cases e He) as [ ->|[ ->|[ ->|[ ->| ->]]]];
      try reflexivity; vm_compute in Hlt; discriminate Hlt.
  - intros d Hd. unfold App.approvePatch. rewrite Hd. reflexivity.
  - intros getDemand ui d cur Hsel Hget.
    unfold App.approveSelected, Api.updateDemand. rewrite Hsel, Hget.
    eexists. split; [reflexivity|].
    rewrite PayloadFacts.field_status, PayloadFacts.field_current_stage.
    unfold Spec.merged, App.approvePatchRow.
    destruct (App.approvePatch d) as [st nxt]. cbn [fst snd].
    rewrite lookup_insert_eq.
    rewrite lookup_insert_ne by discriminate.
    rewrite lookup_singleton_eq.
    split; reflexivity.
Qed.

Lemma approve_transition_witness :
  App.approvePatch (App.mkDemand "D-1" App.UnderReview (Some "Authorization") None) =
    (App.Approved, "Service Portfolio Entry") /\
  App.approvePatch (App.mkDemand "D-2" App.UnderReview (Some "Screening") None) =
    (App.UnderReview, "Assessment").
Proof.
  split.
  - apply (proj1 approve_transition). reflexivity.
  - apply (proj1 (proj2 (proj2 approve_transition))). reflexivity.
Defined.

(** ** Reject *)

(** C5.  Rejecting the selected demand, when its stored row can be read,
    PUTs a row whose [status] is Rejected and whose [current_stage] is the
    stored stage (the stored [current_stage], else the stored
    [currentStage] alias, else null).  The reject patch carries the status
    only: it has no stage property, and no next stage is computed for
    it. *)
Theorem reject_preserves_stage :
  (forall getDemand ui d cur,
     App.selectedDemand ui = Some d ->
     getDemand (App.id d) = Some cur ->
     exists body,
       App.rejectSelected getDemand ui = App.Issued (Api.PUT (App.id d) body) /\
       Api.field "status" body = Some (Api.JStr "Rejected") /\
       Api.field "current_stage" body =
         Some (Api.nullish
                 (Api.nullish (Api.prop cur "current_stage")
                              (Api.prop cur "currentStage")) Api.JNull) /\
       (forall s, cur !! "current_stage" = Some (Api.JStr s) ->
          Api.field "current_stage" body = Some (Api.JStr s))) /\
  dom App.rejectPatchRow = {[ "status" ]}.
Proof.
  split.
  - intros getDemand ui d cur Hsel Hget.
    unfold App.rejectSelected, Api.updateDemand. rewrite Hsel, Hget.
    eexists. split; [reflexivity|].
    rewrite PayloadFacts.field_status, PayloadFacts.field_current_stage.
    unfold Spec.merged, App.rejectPatchRow.
    rewrite lookup_singleton_eq.
    rewrite !lookup_singleton_ne by discriminate.
    split; [reflexivity|]. split; [reflexivity|].
    intros s Hs. unfold Api.prop at 1. rewrite Hs. reflexivity.
  - unfold App.rejectPatchRow. apply dom_singleton_L.
Qed.

Lemma reject_preserves_stage_witness :
  exists body,
    App.rejectSelected
      (fun _ => Some {[ "status" := Api.JStr "Under Review";
                        "current_stage" := Api.JStr "Assessment" ]})
      (App.mkUi (Some (App.mkDemand "D-3" App.UnderReview (Some "Assessment") None))
         App.ITPMO true App.approvals) = App.Issued (Api.PUT "D-3" body) /\
    Api.field "status" body = Some (Api.JStr "Rejected") /\
    Api.field "current_stage" body = Some (Api.JStr "Assessment").
Proof.
  destruct (proj1 reject_preserves_stage
              (fun _ => Some {[ "status" := Api.JStr "Under Review";
                                "current_stage" := Api.JStr "Assessment" ]})
              (App.mkUi (Some (App.mkDemand "D-3" App.UnderReview (Some "Assessment") None))
                 App.ITPMO true App.approvals)
              (App.mkDemand "D-3" App.UnderReview (Some "Assessment") None)
              {[ "status" := Api.JStr "Under Review";
                 "current_stage" := Api.JStr "Assessment" ]}
              eq_refl eq_refl) as (body & Hr & Hs & _ & Hc).
  exists body. split; [exact Hr|]. split; [exact Hs|].
  apply Hc. reflexivity.
Defined.

(** ** Acting without permission *)

(** C1, as stated, fails.  A demand at Screening under review, acting role
    ITPMO (Screening wants BU Head): the guard is false, yet
    [approveSelected] PUTs the row advanced to Assessment and
    [rejectSelected] PUTs it with status Rejected.  Neither handler reports
    a failure. *)
Lemma handlers_do_not_check_guard :
  let d := App.mkDemand "D-4" App.UnderReview (Some "Screening") None in
  let ui := App.mkUi (Some d) App.ITPMO true App.approvals in
  let getDemand := fun _ : string =>
    Some ({[ "title" := Api.JStr "New CRM";
             "status" := Api.JStr "Under Review";
             "current_stage" := Api.JStr "Screening" ]} : Api.Row) in
  App.userCanActOnSelected ui = false /\
  (exists body,
     App.approveSelected getDemand ui = App.Issued (Api.PUT "D-4" body) /\
     Api.field "status" body = Some (Api.JStr "Under Review") /\
     Api.field "current_stage" body = Some (Api.JStr "Assessment")) /\
  (exists body,
     App.rejectSelected getDemand ui = App.Issued (Api.PUT "D-4" body) /\
     Api.field "status" body = Some (Api.JStr "Rejected")).
Proof.
  cbv zeta. split; [reflexivity|].
  split; eexists; (split; [reflexivity|]); vm_compute; repeat split.
Qed.

(** C1, amended.  When the guard is false the approvals tab renders
    neither the Approve nor the Reject control, so no click can run a
    handler and no write is issued from the UI.  The handlers themselves
    do not consult the guard: on a selected demand whose stored row can be
    read they issue the PUT whatever the acting role, and the request does
    not depend on the role. *)
Theorem guard_is_enforced_by_rendering :
  (forall ui, App.userCanActOnSelected ui = false ->
     App.approvalButtons ui = [] /\
     forall getDemand b o, ~ App.click getDemand ui b o) /\
  (forall getDemand ui d cur,
     App.selectedDemand ui = Some d ->
     getDemand (App.id d) = Some cur ->
     (exists r, App.approveSelected getDemand ui = App.Issued r) /\
     (exists r, App.rejectSelected getDemand ui = App.Issued r)) /\
  (forall getDemand sd r r' sm sm' dt dt',
     App.approveSelected getDemand (App.mkUi sd r sm dt) =
       App.approveSelected getDemand (App.mkUi sd r' sm' dt') /\
     App.rejectSelected getDemand (App.mkUi sd r sm dt) =
       App.rejectSelected getDemand (App.mkUi sd r' sm' dt')).
Proof.
  split; [|split].
  - intros ui Hg.
    assert (Hb : App.approvalButtons ui = []).
    { unfold App.approvalButtons. destruct (App.selectedDemand ui); [|reflexivity].
      rewrite Hg, andb_false_r. reflexivity. }
    split; [exact Hb|].
    intros getDemand b o Hc.
    destruct Hc as [Hin|Hin]; rewrite Hb in Hin; now apply elem_of_nil in Hin.
  - intros getDemand ui d cur Hsel Hget.
    unfold App.approveSelected, App.rejectSelected, Api.updateDemand.
    rewrite Hsel, Hget. split; eexists; reflexivity.
  - intros. split; reflexivity.
Qed.

Lemma guard_is_enforced_by_rendering_witness :
  App.approvalButtons
    (App.mkUi (Some (App.mkDemand "D-4" App.UnderReview (Some "Screening") None))
       App.ITPMO true App.approvals) = [].
Proof.
  apply (proj1 guard_is_enforced_by_rendering). reflexivity.
Defined.

(** ** The progress view *)

Lemma currentIndex_range (k : option string) :
  0 <= Workflow.currentIndex k <= 8.
Proof.
  unfold Workflow.currentIndex.
  match goal with |- context [Js.findIndex ?p ?l] =>
    pose proof (findIndex_range p l) as H end.
  cbn [length Workflow.WORKFLOW_STAGES] in H. lia.
Qed.

(** C8.  For every input, [buildWorkflow] returns the nine stages of the
    table in table order (same ids, names and descriptions); exactly one
    entry is current, the one at the resolved index; every entry below
    that index is completed and every entry at or above it is not. *)
Theorem buildWorkflow_single_current (k : option string) :
  let v := Workflow.buildWorkflow k in
  let c := Workflow.currentIndex k in
  0 <= c < 9 /\
  length v = 9%nat /\
  map Workflow.ws_id v = [1; 2; 3; 4; 5; 6; 7; 8; 9] /\
  map Workflow.ws_id v = map Workflow.id Workflow.WORKFLOW_STAGES /\
  map Workflow.ws_name v = map Workflow.name Workflow.WORKFLOW_STAGES /\
  map Workflow.ws_description v =
    map Workflow.description Workflow.WORKFLOW_STAGES /\
  length (List.filter Workflow.current v) = 1%nat /\
  (forall i e, v !! i = Some e ->
     (Workflow.current e = true <-> Z.of_nat i = c) /\
     (Z.of_nat i < c -> Workflow.completed e = true) /\
     (c <= Z.of_nat i -> Workflow.completed e = false)).
Proof.
  cbv zeta. unfold Workflow.buildWorkflow.
  pose proof (currentIndex_range k) as Hc.
  generalize dependent (Workflow.currentIndex k). intros c Hc.
  assert (Hcases : c = 0 \/ c = 1 \/ c = 2 \/ c = 3 \/ c = 4 \/
                   c = 5 \/ c = 6 \/ c = 7 \/ c = 8) by lia.
  split; [lia|].
  do 5 (split; [reflexivity|]).
  split.
  - destruct Hcases as [ ->|[ ->|[ ->|[ ->|[ ->|[ ->|[ ->|[ ->| ->]]]]]]]];
      reflexivity.
  - intros i e Hi. rewrite list_lookup_imap in Hi.
    do 9 (destruct i as [|i];
          [unfold Workflow.WORKFLOW_STAGES in Hi;
           cbn [lookup list_lookup fmap option_fmap option_map] in Hi;
           pose proof (f_equal (fun o => match o with Some x => x | None => e end) Hi)
             as He; cbv beta iota in He;
           rewrite <- He; cbn [Workflow.current Workflow.completed];
           rewrite Z.eqb_eq;
           split; [reflexivity|];
           split; [intros Hlt; apply Z.ltb_lt; exact Hlt
                  |intros Hle; apply Z.ltb_ge; exact Hle]|]).
    discriminate Hi.
Qed.

Lemma buildWorkflow_single_current_witness :
  map Workflow.current (Workflow.buildWorkflow (Some "authorization ")) =
    [false; false; false; false; true; false; false; false; false] /\
  map Workflow.completed (Workflow.buildWorkflow (Some "authorization ")) =
    [true; true; true; true; false; false; false; false; false] /\
  length (List.filter Workflow.current
            (Workflow.buildWorkflow (Some "authorization "))) = 1%nat.
Proof.
  split; [reflexivity|]. split; [reflexivity|].
  apply (buildWorkflow_single_current (Some "authorization ")).
Defined.

(** ** Key resolution *)

Module StringFacts.
Import Js.

Lemma lowerChar_idem c : lowerChar (lowerChar c) = lowerChar c.
Proof. destruct c as [[] [] [] [] [] [] [] []]; reflexivity. Qed.

Lemma isWhite_lowerChar c : isWhite (lowerChar c) = isWhite c.
Proof. destruct c as [[] [] [] [] [] [] [] []]; reflexivity. Qed.

Lemma toLowerCase_idem s : toLowerCase (toLowerCase s) = toLowerCase s.
Proof.
  induction s as [|c r IH]; cbn [toLowerCase]; [reflexivity|].
  now rewrite lowerChar_idem, IH.
Qed.

Lemma toLowerCase_trimStart s :
  toLowerCase (trimStart s) = trimStart (toLowerCase s).
Proof.
  induction s as [|c r IH]; cbn [toLowerCase trimStart]; [reflexivity|].
  rewrite isWhite_lowerChar. destruct (isWhite c); [exact IH|reflexivity].
Qed.

Lemma toLowerCase_trimEnd s :
  toLowerCase (trimEnd s) = trimEnd (toLowerCase s).
Proof.
  induction s as [|c r IH]; cbn [toLowerCase trimEnd]; [reflexivity|].
  rewrite <- IH, isWhite_lowerChar.
  destruct (trimEnd r) as [|c' r']; cbn [toLowerCase].
  - destruct (isWhite c); reflexivity.
  - reflexivity.
Qed.

Lemma toLowerCase_trim s : toLowerCase (trim s) = trim (toLowerCase s).
Proof. unfold trim. now rewrite toLowerCase_trimEnd, toLowerCase_trimStart. Qed.

Lemma trimStart_idem s : trimStart (trimStart s) = trimStart s.
Proof.
  induction s as [|c r IH]; cbn [trimStart]; [reflexivity|].
  destruct (isWhite c) eqn:E; [exact IH|].
  cbn [trimStart]. now rewrite E.
Qed.

Lemma trimEnd_idem s : trimEnd (trimEnd s) = trimEnd s.
Proof.
  induction s as [|c r IH]; cbn [trimEnd]; [reflexivity|].
  destruct (trimEnd r) as [|c' r'] eqn:E.
  - destruct (isWhite c) eqn:W; cbn [trimEnd]; [reflexivity|]. now rewrite W.
  - cbn [trimEnd] in *. now rewrite IH.
Qed.

Lemma trimStart_trimEnd s : trimStart (trimEnd s) = trimEnd (trimStart s).
Proof.
  induction s as [|c r IH]; cbn [trimStart trimEnd]; [reflexivity|].
  destruct (isWhite c) eqn:W.
  - rewrite <- IH. destruct (trimEnd r) as [|c' r']; cbn [trimStart].
    + reflexivity.
    + now rewrite W.
  - cbn [trimEnd]. destruct (trimEnd r) as [|c' r']; cbn [trimStart];
      now rewrite W.
Qed.

Lemma trim_idem s : trim (trim s) = trim s.
Proof.
  unfold trim. now rewrite trimStart_trimEnd, trimStart_idem, trimEnd_idem.
Qed.

End StringFacts.

Lemma normalizeKey_toLowerCase (k : string) :
  Workflow.normalizeKey (Some (Js.toLowerCase k)) = Workflow.normalizeKey (Some k).
Proof.
  unfold Workflow.normalizeKey. cbn [Js.nullish].
  now rewrite StringFacts.toLowerCase_idem.
Qed.

Lemma normalizeKey_trim (k : string) :
  Workflow.normalizeKey (Some (Js.trim k)) = Workflow.normalizeKey (Some k).
Proof.
  unfold Workflow.normalizeKey. cbn [Js.nullish].
  now rewrite StringFacts.toLowerCase_trim, StringFacts.trim_idem.
Qed.

Lemma currentIndex_normalizeKey (k k' : option string) :
  Workflow.normalizeKey k = Workflow.normalizeKey k' ->
  Workflow.currentIndex k = Workflow.currentIndex k'.
Proof. unfold Workflow.currentIndex. now intros ->. Qed.

Lemma currentIndex_unrecognised (k : option string) :
  (forall s, s ∈ Workflow.WORKFLOW_STAGES ->
     Js.toLowerCase (Workflow.key s) <> Workflow.normalizeKey k) ->
  Workflow.currentIndex k = 0.
Proof.
  intros H. unfold Workflow.currentIndex.
  rewrite findIndex_none; [reflexivity|].
  intros s Hs. apply String.eqb_neq. now apply H.
Qed.

Lemma stageIndex_unlisted (k : string) :
  (forall e, e ∈ App.STAGE_FLOW -> App.stage e <> k) ->
  App.stageIndex (Some k) = 0.
Proof.
  intros H.
  assert (Hin : forall s r, App.mkFlow s r ∈ App.STAGE_FLOW -> k <> s).
  { intros s r Hs E. now apply (H _ Hs). }
  destruct (FlowFacts.stageIndex_cases (Some k))
    as [[_ E]|[[E _]|[[E _]|[[E _]|[[E _]|[_ E]]]]]];
    try exact E; cbn [Js.nullish] in E; exfalso;
    eapply Hin; try exact E; unfold App.STAGE_FLOW;
    repeat first [apply list_elem_of_here | apply list_elem_of_further].
Qed.

(** C7.  A key that the Stage Table does not recognise (no entry whose
    lower-cased key equals the normalised input) resolves to index 0 both
    in the table ([currentIndex], the index [buildWorkflow] computes) and
    in the approval flow ([stageIndex]); so do null / undefined and the
    empty string.  For [stageIndex] it is enough that the input is none of
    the nine keys as written.  Both functions are total: no input makes
    them fail. *)
Theorem resolution_default :
  (forall k : option string,
     (forall s, s ∈ Workflow.WORKFLOW_STAGES ->
        Js.toLowerCase (Workflow.key s) <> Workflow.normalizeKey k) ->
     Workflow.currentIndex k = 0 /\ App.stageIndex k = 0) /\
  (forall k : string,
     k ∉ map Workflow.key Workflow.WORKFLOW_STAGES -> App.stageIndex (Some k) = 0) /\
  Workflow.currentIndex None = 0 /\ App.stageIndex None = 0 /\
  Workflow.currentIndex (Some "") = 0 /\ App.stageIndex (Some "") = 0.
Proof.
  split; [|split; [|repeat split; reflexivity]].
  2:{ intros k Hk. apply stageIndex_unlisted. intros e He <-. apply Hk.
      destruct (FlowFacts.flow_entry_cases e He) as [ ->|[ ->|[ ->|[ ->| ->]]]];
        cbn; repeat first [apply list_elem_of_here | apply list_elem_of_further]. }
  intros k H. split; [now apply currentIndex_unrecognised|].
  assert (Hkey : forall i n d s,
            Js.nullish k "Intake" = s ->
            Workflow.mkStage i s n d ∈ Workflow.WORKFLOW_STAGES ->
            Js.toLowerCase s = Js.trim (Js.toLowerCase s) -> False).
  { intros i n d s Hk Hs Heq. apply (H _ Hs). cbn [Workflow.key].
    unfold Workflow.normalizeKey. now rewrite Hk. }
  destruct (FlowFacts.stageIndex_cases k)
    as [[_ E]|[[E _]|[[E _]|[[E _]|[[E _]|[_ E]]]]]];
    try exact E; cbv zeta in E; exfalso;
    eapply Hkey; try exact E; try reflexivity;
    unfold Workflow.WORKFLOW_STAGES;
    repeat first [apply list_elem_of_here | apply list_elem_of_further].
Qed.

Lemma resolution_default_witness :
  Workflow.currentIndex (Some "Backlog") = 0 /\ App.stageIndex (Some "Backlog") = 0.
Proof.
  apply (proj1 resolution_default (Some "Backlog")).
  intros s Hs. unfold Workflow.WORKFLOW_STAGES in Hs.
  repeat (apply elem_of_cons in Hs as [ ->|Hs]); try discriminate.
  now apply elem_of_nil in Hs.
Defined.

(** C6, as stated, fails.  The table resolves " screening " (lower case,
    padded with blanks) to Screening, index 1, exactly as it resolves
    "Screening"; the approval flow resolves "Screening" to its index 1 but
    " screening " and "screening" to 0. *)
Lemma resolution_semantics_differ :
  Workflow.currentIndex (Some " screening ") = 1 /\
  Workflow.currentIndex (Some "Screening") = 1 /\
  App.stageIndex (Some "Screening") = 1 /\
  App.stageIndex (Some " screening ") = 0 /\
  App.stageIndex (Some "screening") = 0 /\
  App.stageIndex (Some "Screening ") = 0.
Proof. repeat split; reflexivity. Qed.

(** C6, amended.  The Stage Table resolution is case-insensitive and
    whitespace-trimmed: lower-casing or trimming the input does not change
    the index, inputs with the same normal form resolve alike, and every
    input whose normal form is the lower-cased key of a stage resolves to
    that stage.  The approval-flow resolution compares exactly: a stage
    name of the flow resolves to its own entry, and every other string,
    case and whitespace variants included, resolves to 0.  Both resolve
    null / undefined and unrecognised keys to 0. *)
Theorem resolution_semantics :
  (forall k : string,
     Workflow.currentIndex (Some (Js.toLowerCase k)) = Workflow.currentIndex (Some k) /\
     Workflow.currentIndex (Some (Js.trim k)) = Workflow.currentIndex (Some k)) /\
  (forall k k' : string,
     Js.trim (Js.toLowerCase k) = Js.trim (Js.toLowerCase k') ->
     Workflow.currentIndex (Some k) = Workflow.currentIndex (Some k')) /\
  (forall s (k : string), s ∈ Workflow.WORKFLOW_STAGES ->
     Js.trim (Js.toLowerCase k) = Js.toLowerCase (Workflow.key s) ->
     Workflow.currentIndex (Some k) = Workflow.id s - 1) /\
  (forall k : option string,
     (forall s, s ∈ Workflow.WORKFLOW_STAGES ->
        Js.toLowerCase (Workflow.key s) <> Workflow.normalizeKey k) ->
     Workflow.currentIndex k = 0) /\
  Workflow.currentIndex None = 0 /\
  (forall e, e ∈ App.STAGE_FLOW ->
     App.STAGE_FLOW !! Z.to_nat (App.stageIndex (Some (App.stage e))) = Some e) /\
  (forall k : string,
     (forall e, e ∈ App.STAGE_FLOW -> App.stage e <> k) ->
     App.stageIndex (Some k) = 0) /\
  App.stageIndex None = 0.
Proof.
  split; [|split; [|split; [|split; [|split; [|split; [|split]]]]]].
  - intros k. split; apply currentIndex_normalizeKey.
    + apply normalizeKey_toLowerCase.
    + apply normalizeKey_trim.
  - intros k k' H. now apply currentIndex_normalizeKey.
  - intros s k Hs H. unfold Workflow.currentIndex, Workflow.normalizeKey.
    cbn [Js.nullish]. rewrite H.
    unfold Workflow.WORKFLOW_STAGES in Hs.
    repeat (apply elem_of_cons in Hs as [ ->|Hs]); try reflexivity.
    now apply elem_of_nil in Hs.
  - exact currentIndex_unrecognised.
  - reflexivity.
  - intros e He.
    destruct (FlowFacts.flow_entry_cases e He) as [ ->|[ ->|[ ->|[ ->| ->]]]];
      reflexivity.
  - exact stageIndex_unlisted.
  - reflexivity.
Qed.

Lemma resolution_semantics_witness :
  Workflow.currentIndex (Some "  CLOSURE") = 9 - 1 /\
  App.stageIndex (Some "  CLOSURE") = 0.
Proof.
  split.
  - apply (proj1 (proj2 (proj2 resolution_semantics))
             (Workflow.mkStage 9 "Closure" "Demand Closure" "Closure & Feedback")).
    + unfold Workflow.WORKFLOW_STAGES.
      repeat first [apply list_elem_of_here | apply list_elem_of_further].
    + reflexivity.
  - apply (proj1 (proj2 (proj2 (proj2 (proj2 (proj2 (proj2 resolution_semantics))))))).
    intros e He.
    destruct (FlowFacts.flow_entry_cases e He) as [ ->|[ ->|[ ->|[ ->| ->]]]];
      discriminate.
Defined.

(** ** The merge-then-write update *)

(** C9, as stated, fails.  A patch that carries [created_date] does not
    get it written: the stored creation date is.  A stored
    [expected_delivery] given as a bare date is written with a time
    appended although the patch does not mention it.  A stored row that
    holds its stage under [currentStage] is written without that property:
    the value moves to [current_stage]. *)
Lemma updateDemand_not_fieldwise :
  let cur : Api.Row :=
    {[ "title" := Api.JStr "New CRM";
       "status" := Api.JStr "Submitted";
       "currentStage" := Api.JStr "Screening";
       "expected_delivery" := Api.JStr "2025-03-01";
       "created_date" := Api.JStr "2025-01-15T00:00:00Z" ]} in
  let patch : Api.Row := {[ "created_date" := Api.JStr "2025-02-20T00:00:00Z" ]} in
  let body := Api.payload "D-5" cur patch in
  Api.updateDemand (fun _ => Some cur) "D-5" patch = Some (Api.PUT "D-5" body) /\
  patch !! "created_date" = Some (Api.JStr "2025-02-20T00:00:00Z") /\
  Api.field "created_date" body = Some (Api.JStr "2025-01-15T00:00:00Z") /\
  patch !! "expected_delivery" = None /\
  cur !! "expected_delivery" = Some (Api.JStr "2025-03-01") /\
  Api.field "expected_delivery" body = Some (Api.JStr "2025-03-01T00:00:00Z") /\
  patch !! "currentStage" = None /\
  cur !! "currentStage" = Some (Api.JStr "Screening") /\
  Api.field "currentStage" body = None /\
  Api.field "current_stage" body = Some (Api.JStr "Screening").
Proof. cbv zeta. repeat split; vm_compute; reflexivity. Qed.

(** C9, amended.  [updateDemand] reads the stored row and PUTs an object
    that always has the twenty-one properties of [payloadFields].  For the
    fifteen plain fields the written value is the patch's when the patch
    has the field and the stored one otherwise, undefined being written as
    null.
    [title] is merged the same way and written as "(Untitled)" when the
    merged value is null or undefined.  [current_stage],
    [expected_start_date] and [expected_delivery] are merged the same way,
    fall back to the camelCase alias of the merged row, and the two dates
    pass through [toUtcMidnight], which appends the time to a bare
    YYYY-MM-DD date, keeps any other non-empty string and turns a falsy
    value into null.  [created_date] is the stored creation date whatever
    the patch says, and [id] is the id of the call. *)
Theorem updateDemand_merge (getDemand : string -> option Api.Row)
    (id : string) (cur patch : Api.Row) :
  getDemand id = Some cur ->
  let body := Api.payload id cur patch in
  let m := Spec.merged cur patch in
  Api.updateDemand getDemand id patch = Some (Api.PUT id body) /\
  (forall k, k ∈ Spec.payloadFields -> is_Some (Api.field k body)) /\
  (forall k, k ∈ Spec.plainFields ->
     (forall v, patch !! k = Some v ->
        Api.field k body = Some (Api.nullish v Api.JNull)) /\
     (patch !! k = None ->
        Api.field k body = Some (Api.nullish (Api.prop cur k) Api.JNull))) /\
  Api.field "title" body = Some (Api.nullish (m "title") (Api.JStr "(Untitled)")) /\
  Api.field "current_stage" body =
    Some (Api.nullish (Api.nullish (m "current_stage") (m "currentStage")) Api.JNull) /\
  Api.field "expected_start_date" body =
    Some (Api.nullish
            (Api.toUtcMidnight
               (Api.nullish (m "expected_start_date") (m "expectedStartDate")))
            Api.JNull) /\
  Api.field "expected_delivery" body =
    Some (Api.nullish
            (Api.toUtcMidnight
               (Api.nullish (m "expected_delivery") (m "expectedDelivery")))
            Api.JNull) /\
  Api.field "created_date" body =
    Some (Api.nullish
            (Api.nullish (Api.prop cur "created_date") (Api.prop cur "createdDate"))
            Api.JNull) /\
  Api.field "id" body = Some (Api.JStr id) /\
  (forall s, Api.isIsoDate s = true ->
     Api.toUtcMidnight (Api.JStr s) = Api.JStr (s ++ "T00:00:00Z")) /\
  (forall s, Api.isIsoDate s = false -> s <> "" ->
     Api.toUtcMidnight (Api.JStr s) = Api.JStr s) /\
  (forall v, Api.falsy v = true ->
     Api.nullish (Api.toUtcMidnight v) Api.JNull = Api.JNull).
Proof.
  intros Hget. cbv zeta.
  split; [unfold Api.updateDemand; now rewrite Hget|].
  split.
  { intros k Hk. unfold Spec.payloadFields in Hk.
    repeat (apply elem_of_cons in Hk as [ ->|Hk]); try (eexists; reflexivity).
    now apply elem_of_nil in Hk. }
  split.
  { intros k Hk.
    assert (Hm : Api.field k (Api.payload id cur patch) =
                 Some (Api.nullish (Spec.merged cur patch k) Api.JNull)).
    { unfold Spec.plainFields in Hk.
      repeat (apply elem_of_cons in Hk as [ ->|Hk]);
        try (rewrite <- PayloadFacts.prop_spread; reflexivity).
      now apply elem_of_nil in Hk. }
    rewrite Hm. unfold Spec.merged. split.
    - intros v ->. reflexivity.
    - intros ->. reflexivity. }
  do 6 (split; [rewrite <- ?PayloadFacts.prop_spread; reflexivity|]).
  split; [|split].
  - intros s Hs. unfold Api.toUtcMidnight. rewrite Hs.
    destruct s; [discriminate Hs|reflexivity].
  - intros s Hs Hne. unfold Api.toUtcMidnight. rewrite Hs.
    destruct s; [now contradict Hne|reflexivity].
  - intros v Hv. unfold Api.toUtcMidnight. now rewrite Hv.
Qed.

Lemma updateDemand_merge_witness :
  let cur : Api.Row :=
    {[ "title" := Api.JStr "New CRM";
       "status" := Api.JStr "Submitted";
       "requestor" := Api.JStr "Dana" ]} in
  let patch : Api.Row := {[ "status" := Api.JStr "Rejected" ]} in
  Api.field "status" (Api.payload "D-6" cur patch) = Some (Api.JStr "Rejected") /\
  Api.field "requestor" (Api.payload "D-6" cur patch) = Some (Api.JStr "Dana").
Proof.
  cbv zeta.
  pose proof (updateDemand_merge
                (fun _ => Some {[ "title" := Api.JStr "New CRM";
                                  "status" := Api.JStr "Submitted";
                                  "requestor" := Api.JStr "Dana" ]})
                "D-6"
                {[ "title" := Api.JStr "New CRM";
                   "status" := Api.JStr "Submitted";
                   "requestor" := Api.JStr "Dana" ]}
                {[ "status" := Api.JStr "Rejected" ]}
                eq_refl) as H.
  cbv zeta in H. destruct H as (_ & _ & Hplain & _).
  assert (Hs : "status" ∈ Spec.plainFields).
  { unfold Spec.plainFields.
    repeat first [apply list_elem_of_here | apply list_elem_of_further]. }
  assert (Hr : "requestor" ∈ Spec.plainFields).
  { unfold Spec.plainFields.
    repeat first [apply list_elem_of_here | apply list_elem_of_further]. }
  split.
  - exact (proj1 (Hplain "status" Hs) (Api.JStr "Rejected") eq_refl).
  - exact (proj2 (Hplain "requestor" Hr) eq_refl).
Defined.

(** The description editor sends [last_modified_by] in its patch; the
    written object has no such property, whatever the stored row and the
    patch hold. *)
Lemma last_modified_by_not_written (id : string) (cur patch : Api.Row) :
  Api.field "last_modified_by" (Api.payload id cur patch) = None.
Proof. reflexivity. Qed.

(** * Further properties of the approval flow *)

Module FlowMore.
Import App.

Lemma requiredRole_cases (k : option string) :
  let s := Js.nullish k "Intake" in
  (s = "Service Portfolio Entry" /\ requiredRoleForStage k = None) \/
  (s <> "Service Portfolio Entry" /\ exists r, requiredRoleForStage k = Some r).
Proof.
  cbv zeta. unfold requiredRoleForStage.
  destruct (FlowFacts.stageIndex_cases k)
    as [[E ->]|[[E ->]|[[E ->]|[[E ->]|[[E ->]|[E ->]]]]]]; cbv zeta in E.
  1-4: right; split; [rewrite E; discriminate | eexists; reflexivity].
  - left. split; [exact E | reflexivity].
  - right. split; [|eexists; reflexivity].
    intros Hs. apply (E (mkFlow "Service Portfolio Entry" None)).
    + unfold STAGE_FLOW.
      repeat first [apply list_elem_of_here | apply list_elem_of_further].
    + now rewrite Hs.
Qed.

Lemma guard_spec (d : Demand) (r : Role) (sm : bool) (dt : DetailTab) :
  userCanActOnSelected (mkUi (Some d) r sm dt) = true <->
  requiredRoleForStage (stageOf d) = Some r /\
  (status d = Submitted \/ status d = UnderReview).
Proof.
  unfold userCanActOnSelected. cbn [selectedDemand currentRole].
  rewrite andb_true_iff, orb_true_iff, !bool_decide_eq_true. reflexivity.
Qed.

End FlowMore.

(** X1.  On a demand whose status is Submitted or Under Review and whose
    stage does not read as the last flow entry, exactly one role can act:
    there is a role for which the guard holds, and any two roles for which
    it holds are equal. *)
Theorem exactly_one_role_can_act (d : App.Demand) (sm : bool) (dt : App.DetailTab) :
  App.status d = App.Submitted \/ App.status d = App.UnderReview ->
  App.stageOf d <> Some "Service Portfolio Entry" ->
  exists r,
    App.userCanActOnSelected (App.mkUi (Some d) r sm dt) = true /\
    forall r', App.userCanActOnSelected (App.mkUi (Some d) r' sm dt) = true -> r' = r.
Proof.
  intros Hst Hstage.
  destruct (FlowMore.requiredRole_cases (App.stageOf d)) as [[E _]|[_ [r Hr]]].
  - exfalso. destruct (App.stageOf d) as [s|] eqn:Es; cbn in E.
    + apply Hstage. now rewrite E.
    + discriminate E.
  - exists r. split.
    + apply FlowMore.guard_spec. now split.
    + intros r' H'. apply FlowMore.guard_spec in H'.
      destruct H' as [H' _]. rewrite Hr in H'. now injection H' as ->.
Qed.

Lemma exactly_one_role_can_act_witness :
  exists r,
    App.userCanActOnSelected
      (App.mkUi (Some (App.mkDemand "D-8" App.Submitted (Some "Assessment") None))
         r true App.approvals) = true /\
    forall r',
      App.userCanActOnSelected
        (App.mkUi (Some (App.mkDemand "D-8" App.Submitted (Some "Assessment") None))
           r' true App.approvals) = true -> r' = r.
Proof.
  apply (exactly_one_role_can_act
           (App.mkDemand "D-8" App.Submitted (Some "Assessment") None)
           true App.approvals).
  - left. reflexivity.
  - cbn. discriminate.
Defined.

(** X2.  The last flow entry has no approver: a stage input has no
    required role exactly when it reads as Service Portfolio Entry, and on
    a demand at that stage the guard is false for every role and every
    status. *)
Theorem terminal_stage_has_no_actor :
  (forall k : option string,
     App.requiredRoleForStage k = None <->
     Js.nullish k "Intake" = "Service Portfolio Entry") /\
  (forall d r sm dt,
     App.stageOf d = Some "Service Portfolio Entry" ->
     App.userCanActOnSelected (App.mkUi (Some d) r sm dt) = false).
Proof.
  split.
  - intros k. destruct (FlowMore.requiredRole_cases k) as [[E H]|[E [r H]]];
      cbv zeta in E; rewrite H; split; intros X;
      first [exact E | reflexivity | discriminate X | now contradict E].
  - intros d r sm dt Hd.
    destruct (App.userCanActOnSelected _) eqn:G; [|reflexivity].
    apply FlowMore.guard_spec in G. destruct G as [G _].
    rewrite Hd in G. discriminate G.
Qed.

Lemma terminal_stage_has_no_actor_witness :
  App.userCanActOnSelected
    (App.mkUi (Some (App.mkDemand "D-9" App.UnderReview
                       (Some "Service Portfolio Entry") None))
       App.DBR true App.approvals) = false.
Proof.
  apply (proj2 terminal_stage_has_no_actor). reflexivity.
Defined.

(** X3.  Approval cannot loop or stall: the resolved index never goes
    down under [nextStageFrom], it goes up strictly unless the input
    already reads as Service Portfolio Entry, that stage is a fixed point,
    and from any input whatsoever four applications reach it. *)
Theorem approval_chain_terminates :
  (forall k : option string,
     App.stageIndex k <= App.stageIndex (Some (App.nextStageFrom k))) /\
  (forall k : option string,
     Js.nullish k "Intake" <> "Service Portfolio Entry" ->
     App.stageIndex k < App.stageIndex (Some (App.nextStageFrom k))) /\
  App.nextStageFrom (Some "Service Portfolio Entry") = "Service Portfolio Entry" /\
  (forall (k : option string) (n : nat), (3 <= n)%nat ->
     Nat.iter n (fun s => App.nextStageFrom (Some s)) (App.nextStageFrom k) =
       "Service Portfolio Entry").
Proof.
  assert (Hcases : forall k : option string,
            App.nextStageFrom k = "Screening" \/ App.nextStageFrom k = "Assessment" \/
            App.nextStageFrom k = "Authorization" \/
            App.nextStageFrom k = "Service Portfolio Entry").
  { intros k. unfold App.nextStageFrom.
    destruct (FlowFacts.stageIndex_cases k)
      as [[_ ->]|[[_ ->]|[[_ ->]|[[_ ->]|[[_ ->]|[_ ->]]]]]]; cbn; auto. }
  split; [|split; [|split]].
  - intros k. unfold App.nextStageFrom.
    destruct (FlowFacts.stageIndex_cases k)
      as [[_ ->]|[[_ ->]|[[_ ->]|[[_ ->]|[[_ ->]|[_ ->]]]]]]; vm_compute; discriminate.
  - intros k Hk. unfold App.nextStageFrom.
    destruct (FlowFacts.stageIndex_cases k)
      as [[_ ->]|[[_ ->]|[[_ ->]|[[_ ->]|[[E ->]|[_ ->]]]]]];
      try (vm_compute; reflexivity).
    now contradict Hk.
  - reflexivity.
  - intros k n Hn.
    assert (Hfix : forall m, Nat.iter m (fun s => App.nextStageFrom (Some s))
                               "Service Portfolio Entry" = "Service Portfolio Entry").
    { induction m as [|m IH]; [reflexivity|]. rewrite Nat.iter_succ. now rewrite IH. }
    destruct n as [|[|[|n]]]; try lia.
    rewrite !Nat.iter_succ_r.
    destruct (Hcases k) as [ ->|[ ->|[ ->| ->]]]; apply Hfix.
Qed.

Lemma approval_chain_terminates_witness :
  Nat.iter 3 (fun s => App.nextStageFrom (Some s)) (App.nextStageFrom (Some "Closure")) =
    "Service Portfolio Entry".
Proof.
  apply (proj2 (proj2 (proj2 approval_chain_terminates))). lia.
Defined.

(** X4.  Whatever the selected demand, the pair [approveSelected] writes
    is consistent: either status Approved with stage Service Portfolio
    Entry, or status Under Review with a stage that has an approver other
    than the requestor.  An approval never sends a demand back to Intake
    and never leaves it under review at a stage nobody can approve. *)
Theorem approve_writes_consistent_pair (d : App.Demand) :
  (fst (App.approvePatch d) = App.Approved /\
   snd (App.approvePatch d) = "Service Portfolio Entry") \/
  (fst (App.approvePatch d) = App.UnderReview /\
   exists r, App.requiredRoleForStage (Some (snd (App.approvePatch d))) = Some r /\
             r <> App.DemandRequestor).
Proof.
  unfold App.approvePatch.
  set (current := match App.stageOf d with
                  | Some s => if String.eqb s "" then "Intake" else s
                  | None => "Intake"
                  end).
  unfold App.nextStageFrom.
  destruct (FlowFacts.stageIndex_cases (Some current))
    as [[_ ->]|[[_ ->]|[[_ ->]|[[_ ->]|[[_ ->]|[_ ->]]]]]]; clear current.
  1,2,3,6: right; split; [reflexivity|]; eexists; split; [reflexivity|discriminate].
  all: left; split; reflexivity.
Qed.

(** X5.  The approval queue lists a demand for a role exactly when the
    guard of the detail modal lets that role act on it, provided the
    demand's [current_stage] is not the empty string.  (The queue reads
    the stage with [??], the guard with [||]; they part on the empty
    string only.) *)
Theorem approvalQueue_agrees_with_guard
    (r : App.Role) (demands : list App.Demand) (d : App.Demand)
    (sm : bool) (dt : App.DetailTab) :
  App.current_stage d <> Some "" ->
  (d ∈ Views.approvalQueue r demands <->
   d ∈ demands /\ App.userCanActOnSelected (App.mkUi (Some d) r sm dt) = true).
Proof.
  intros Hne. unfold Views.approvalQueue.
  rewrite !list_elem_of_In, !filter_In, <- list_elem_of_In.
  rewrite FlowMore.guard_spec, orb_true_iff, !bool_decide_eq_true.
  assert (Hst : Views.coalesce (App.current_stage d) (App.currentStage d) =
                App.stageOf d).
  { unfold App.stageOf, Js.or_else, Views.coalesce.
    destruct (App.current_stage d) as [[|c s]|]; try reflexivity.
    now contradict Hne. }
  rewrite Hst. tauto.
Qed.

Lemma approvalQueue_agrees_with_guard_witness :
  App.mkDemand "D-10" App.Submitted (Some "Screening") None ∈
    Views.approvalQueue App.BUHead
      [App.mkDemand "D-10" App.Submitted (Some "Screening") None] <->
  App.mkDemand "D-10" App.Submitted (Some "Screening") None ∈
    [App.mkDemand "D-10" App.Submitted (Some "Screening") None] /\
  App.userCanActOnSelected
    (App.mkUi (Some (App.mkDemand "D-10" App.Submitted (Some "Screening") None))
       App.BUHead true App.approvals) = true.
Proof.
  apply (approvalQueue_agrees_with_guard App.BUHead
           [App.mkDemand "D-10" App.Submitted (Some "Screening") None]
           (App.mkDemand "D-10" App.Submitted (Some "Screening") None)
           true App.approvals).
  cbn. discriminate.
Defined.

(** X6.  The Workflow Progress list of the detail modal shows the five
    flow entries in order with their approvers; for every demand exactly
    one step is current, every step before it is completed and no other
    step is. *)
Theorem flowProgress_single_current (d : App.Demand) :
  let v := Views.flowProgress d in
  let c := App.stageIndex (Views.coalesce (App.current_stage d) (App.currentStage d)) in
  map Views.fs_stage v = map App.stage App.STAGE_FLOW /\
  map Views.fs_role v = map App.role App.STAGE_FLOW /\
  length (List.filter Views.fs_isCurrent v) = 1%nat /\
  (forall i e, v !! i = Some e ->
     (Views.fs_isCurrent e = true <-> Z.of_nat i = c) /\
     (Views.fs_completed e = true <-> Z.of_nat i < c)).
Proof.
  cbv zeta. unfold Views.flowProgress.
  pose proof (FlowFacts.stageIndex_range
                (Views.coalesce (App.current_stage d) (App.currentStage d))) as Hc.
  generalize dependent
    (App.stageIndex (Views.coalesce (App.current_stage d) (App.currentStage d))).
  intros c Hc. cbn [length App.STAGE_FLOW] in Hc.
  assert (Hcases : c = 0 \/ c = 1 \/ c = 2 \/ c = 3 \/ c = 4) by lia.
  do 2 (split; [reflexivity|]).
  split.
  - destruct Hcases as [ ->|[ ->|[ ->|[ ->| ->]]]]; reflexivity.
  - intros i e Hi. rewrite list_lookup_imap in Hi.
    do 5 (destruct i as [|i];
          [unfold App.STAGE_FLOW in Hi;
           cbn [lookup list_lookup fmap option_fmap option_map] in Hi;
           pose proof (f_equal (fun o => match o with Some x => x | None => e end) Hi)
             as He; cbv beta iota in He;
           rewrite <- He; cbn [Views.fs_isCurrent Views.fs_completed];
           rewrite Z.eqb_eq, Z.ltb_lt; split; reflexivity|]).
    discriminate Hi.
Qed.

Lemma flowProgress_single_current_witness :
  length (List.filter Views.fs_isCurrent
            (Views.flowProgress
               (App.mkDemand "D-11" App.UnderReview (Some "Authorization") None))) =
    1%nat.
Proof.
  apply (flowProgress_single_current
           (App.mkDemand "D-11" App.UnderReview (Some "Authorization") None)).
Defined.


Example approvalQueue_parts_on_empty_stage :
  let d := App.mkDemand "D-12" App.Submitted (Some "") (Some "Screening") in
  Views.approvalQueue App.DemandRequestor [d] = [d] /\
  Views.approvalQueue App.BUHead [d] = [] /\
  App.userCanActOnSelected (App.mkUi (Some d) App.BUHead true App.approvals) = true.
Proof. repeat split. Qed.

(** ** Pagination *)

Module PageFacts.
Import Views.

Section Pages.
Context {A : Type}.

Lemma page_take_drop (l : list A) (n : nat) :
  paginatedDemands l (Z.of_nat (S n)) = take 10 (drop (10 * n) l).
Proof.
  unfold paginatedDemands, slice, itemsPerPage. cbv zeta.
  replace ((Z.of_nat (S n) - 1) * 10) with (Z.of_nat (10 * n)) by lia.
  set (len := length l).
  destruct (Z.ltb_spec (Z.of_nat (10 * n)) 0) as [?|_]; [lia|].
  destruct (Z.ltb_spec (Z.of_nat (10 * n) + 10) 0) as [?|_]; [lia|].
  destruct (Nat.le_gt_cases len (10 * n)) as [Hge|Hlt].
  - rewrite !drop_ge by (fold len; lia). now rewrite !take_nil.
  - replace (Z.to_nat (Z.of_nat (10 * n) `min` Z.of_nat len)) with (10 * n)%nat by lia.
    destruct (Nat.le_gt_cases (len - 10 * n) 10) as [Hs|Hb].
    + rewrite !take_ge; [reflexivity| |]; rewrite length_drop; fold len; lia.
    + f_equal. lia.
Qed.

Lemma chunks_concat (n : nat) : forall l : list A,
  (length l <= 10 * n)%nat ->
  concat (map (fun p => take 10 (drop (10 * p) l)) (seq 0 n)) = l.
Proof.
  induction n as [|n IH]; intros l Hl.
  - destruct l; [reflexivity|cbn in Hl; lia].
  - cbn [seq map concat]. rewrite <- seq_shift, map_map.
    replace (drop (10 * 0) l) with l by reflexivity.
    rewrite (map_ext _ (fun p => take 10 (drop (10 * p) (drop 10 l)))).
    + rewrite IH by (rewrite length_drop; lia). apply take_drop.
    + intros p. rewrite drop_drop. do 2 f_equal. lia.
Qed.

End Pages.
End PageFacts.

(** X8.  The pages partition the filtered list: pages 1 to [totalPages],
    in order, concatenate to exactly the list; a page never holds more
    than ten rows; each of the pages 1 to [totalPages] holds at least one;
    every page after the last is empty. *)
Theorem pages_partition {A : Type} (l : list A) :
  concat (map (fun p => Views.paginatedDemands l (Z.of_nat p))
              (seq 1 (Z.to_nat (Views.totalPages l)))) = l /\
  (forall p, 1 <= p -> (length (Views.paginatedDemands l p) <= 10)%nat) /\
  (forall p, 1 <= p <= Views.totalPages l ->
     (1 <= length (Views.paginatedDemands l p))%nat) /\
  (forall p, Views.totalPages l < p -> Views.paginatedDemands l p = []).
Proof.
  assert (Htp : 10 * (Views.totalPages l - 1) < Z.of_nat (length l) <=
                10 * Views.totalPages l).
  { unfold Views.totalPages, Views.itemsPerPage.
    pose proof (Z.div_mod (Z.of_nat (length l) + 10 - 1) 10 ltac:(lia)).
    pose proof (Z.mod_pos_bound (Z.of_nat (length l) + 10 - 1) 10 ltac:(lia)).
    lia. }
  assert (Hpage : forall p, 1 <= p ->
            Views.paginatedDemands l p = take 10 (drop (10 * (Z.to_nat p - 1)) l)).
  { intros p Hp. destruct (Z.to_nat p) as [|n] eqn:E; [lia|].
    replace p with (Z.of_nat (S n)) by lia.
    rewrite PageFacts.page_take_drop. do 2 f_equal. lia. }
  split; [|split; [|split]].
  - rewrite <- seq_shift, map_map.
    rewrite (map_ext _ (fun p => take 10 (drop (10 * p) l))).
    + apply PageFacts.chunks_concat. lia.
    + intros p. apply PageFacts.page_take_drop.
  - intros p Hp. rewrite Hpage by exact Hp. rewrite length_take. lia.
  - intros p Hp. rewrite Hpage by lia. rewrite length_take, length_drop. lia.
  - intros p Hp. assert (0 <= Views.totalPages l) by lia.
    rewrite Hpage by lia. rewrite drop_ge by lia. apply take_nil.
Qed.

Lemma pages_partition_witness :
  (length (Views.paginatedDemands (seq 0 23) 3) <= 10)%nat /\
  (1 <= length (Views.paginatedDemands (seq 0 23) 3))%nat /\
  Views.paginatedDemands (seq 0 23) 4 = [].
Proof.
  split; [|split].
  - apply (proj1 (proj2 (pages_partition (seq 0 23)))). lia.
  - apply (proj1 (proj2 (proj2 (pages_partition (seq 0 23))))).
    vm_compute. split; discriminate.
  - apply (proj2 (proj2 (proj2 (pages_partition (seq 0 23))))). reflexivity.
Defined.

(** X9.  Page navigation.  When there is at least one page, Previous and
    Next keep the current page between 1 and [totalPages].  On an empty
    list there are no pages, the Next button is not disabled on page 1,
    and pressing it moves to page 0; page 0 is empty for every list. *)
Theorem page_navigation :
  (forall tp p, 1 <= tp -> 1 <= p <= tp ->
     1 <= Views.prevPage p <= tp /\ 1 <= Views.nextPage tp p <= tp) /\
  (forall tp, 1 <= tp -> Views.nextPage tp tp = tp) /\
  Views.prevPage 1 = 1 /\
  (forall A : Type, Views.totalPages (@nil A) = 0) /\
  Views.nextPage 0 1 = 0 /\
  (forall (A : Type) (l : list A), Views.paginatedDemands l 0 = []).
Proof.
  unfold Views.prevPage, Views.nextPage.
  split; [intros; lia|]. split; [intros; lia|]. split; [reflexivity|].
  split; [reflexivity|]. split; [reflexivity|].
  intros A l. unfold Views.paginatedDemands, Views.slice, Views.itemsPerPage.
  cbv zeta. change ((0 - 1) * 10) with (-10). change (-10 + 10) with 0.
  change (-10 <? 0) with true. change (0 <? 0) with false. cbv iota.
  replace (Z.to_nat _) with 0%nat by lia. reflexivity.
Qed.

Lemma page_navigation_witness :
  1 <= Views.prevPage 3 <= 3 /\ 1 <= Views.nextPage 3 3 <= 3.
Proof.
  apply (proj1 page_navigation); lia.
Defined.

(** * Further properties of the REST layer *)

Module ApiFacts.
Import Api.

Lemma isIsoDate_length s : isIsoDate s = true -> String.length s = 10%nat.
Proof.
  destruct s as [|c1 [|c2 [|c3 [|c4 [|c5 [|c6 [|c7 [|c8 [|c9 [|c10 [|c11 s]]]]]]]]]]];
    cbn; intros H; try discriminate H; reflexivity.
Qed.

Lemma isIsoDate_false_long s : String.length s <> 10%nat -> isIsoDate s = false.
Proof.
  intros H. destruct (isIsoDate s) eqn:E; [|reflexivity].
  now apply isIsoDate_length in E.
Qed.

Lemma length_append s t :
  String.length (s ++ t) = (String.length s + String.length t)%nat.
Proof. induction s as [|c s IH]; simpl; [reflexivity|]. f_equal. exact IH. Qed.

Lemma toUtcMidnight_cases v :
  (falsy v = true /\ toUtcMidnight v = JUndef) \/
  (falsy v = false /\ falsy (toUtcMidnight v) = false /\
   toUtcMidnight (toUtcMidnight v) = toUtcMidnight v).
Proof.
  destruct v as [| |b|n|s].
  - left. split; reflexivity.
  - left. split; reflexivity.
  - destruct b; [right|left]; repeat split; reflexivity.
  - unfold toUtcMidnight. cbn [falsy].
    destruct (n =? 0) eqn:E; [left; split; reflexivity|right].
    cbn [falsy]. rewrite E. repeat split; reflexivity.
  - destruct s as [|c s]; [left; split; reflexivity|right].
    split; [reflexivity|].
    unfold toUtcMidnight at 1 3 4. cbn [falsy String.eqb].
    destruct (isIsoDate (String c s)) eqn:I.
    + assert (L : String.length (String c s ++ "T00:00:00Z") = 20%nat).
      { rewrite length_append, (isIsoDate_length _ I). reflexivity. }
      split; [reflexivity|].
      unfold toUtcMidnight. cbn [falsy String.append String.eqb].
      change (String c (s ++ "T00:00:00Z")) with (String c s ++ "T00:00:00Z").
      rewrite isIsoDate_false_long by (rewrite L; discriminate). reflexivity.
    + split; [reflexivity|].
      unfold toUtcMidnight. cbn [falsy String.eqb]. now rewrite I.
Qed.

Lemma field_list_to_map (body : list (string * JsVal)) (k : string) :
  (list_to_map body : Row) !! k = field k body.
Proof.
  induction body as [|[k' v] r IH]; cbn [field].
  - apply lookup_empty.
  - cbn [list_to_map foldr]. destruct (String.eqb_spec k' k) as [ ->|Hne].
    + apply lookup_insert_eq.
    + rewrite lookup_insert_ne by exact Hne. exact IH.
Qed.

Lemma nullish_null_idem a : nullish (nullish a JNull) JNull = nullish a JNull.
Proof. now destruct a. Qed.

Lemma nullish_alias_absent a : nullish (nullish (nullish a JNull) JUndef) JNull = nullish a JNull.
Proof. now destruct a. Qed.

Lemma nullish_date_idem v :
  nullish (toUtcMidnight (nullish (nullish (toUtcMidnight v) JNull) JUndef)) JNull =
  nullish (toUtcMidnight v) JNull.
Proof.
  destruct (toUtcMidnight_cases v) as [[_ ->]|(_ & F & I)]; [reflexivity|].
  destruct (toUtcMidnight v) as [| |b|n|s] eqn:E; try discriminate F;
    cbn [nullish]; now rewrite I.
Qed.

End ApiFacts.

(** X10.  [toUtcMidnight] is idempotent, and it returns either undefined
    (exactly on falsy input) or a truthy value: never null, never the
    empty string.  A date it has completed is not completed again. *)
Theorem toUtcMidnight_idempotent (v : Api.JsVal) :
  Api.toUtcMidnight (Api.toUtcMidnight v) = Api.toUtcMidnight v /\
  (Api.toUtcMidnight v = Api.JUndef <-> Api.falsy v = true) /\
  (Api.toUtcMidnight v = Api.JUndef \/ Api.falsy (Api.toUtcMidnight v) = false).
Proof.
  destruct (ApiFacts.toUtcMidnight_cases v) as [[F E]|(F & F' & I)].
  - rewrite E. split; [reflexivity|]. split; [tauto|now left].
  - split; [exact I|]. split; [|now right].
    split; intros H; [|congruence]. rewrite H in F'. discriminate F'.
Qed.

(** X11.  Writing is idempotent: if the row [updateDemand] has written is
    read back as it was written and saved again with an empty patch, the
    same row is written again, property for property. *)
Theorem updateDemand_rewrite_is_identity (id : string) (cur patch : Api.Row) :
  Api.payload id (list_to_map (Api.payload id cur patch)) ∅ =
  Api.payload id cur patch.
Proof.
  set (body := Api.payload id cur patch).
  assert (Hm : forall k,
            Api.prop (∅ ∪ list_to_map body) k =
            match Api.field k body with Some v => v | None => Api.JUndef end).
  { intros k. unfold Api.prop.
    rewrite lookup_union_r by apply lookup_empty.
    now rewrite ApiFacts.field_list_to_map. }
  assert (Hc : forall k,
            Api.prop (list_to_map body) k =
            match Api.field k body with Some v => v | None => Api.JUndef end).
  { intros k. unfold Api.prop. now rewrite ApiFacts.field_list_to_map. }
  unfold Api.payload at 1. cbv zeta. unfold Api.spread.
  rewrite !Hm, ?Hc.
  subst body. unfold Api.payload, Api.spread. cbv zeta.
  cbn [Api.field String.eqb Ascii.eqb Bool.eqb].
  repeat (apply (f_equal2 cons); [apply (f_equal2 pair); [reflexivity|]|]);
    first [ reflexivity
          | apply ApiFacts.nullish_null_idem
          | apply ApiFacts.nullish_alias_absent
          | apply ApiFacts.nullish_date_idem
          | idtac ].
  now destruct (Api.prop (patch ∪ cur) "title").
Qed.

Module CreateFacts.
Import Api.

Lemma field_absent (l : list (string * JsVal)) (k : string) :
  k ∉ map fst l -> field k l = None.
Proof.
  induction l as [|[k' v] r IH]; intros H; cbn [field]; [reflexivity|].
  destruct (String.eqb_spec k' k) as [ ->|Hne].
  - exfalso. apply H. cbn. apply list_elem_of_here.
  - apply IH. intros Hin. apply H. cbn. now apply list_elem_of_further.
Qed.

Lemma field_without_undefined (l : list (string * JsVal)) (k : string) :
  NoDup (map fst l) ->
  field k (List.filter (fun kv => negb (ApiCreate.isUndefined (snd kv))) l) =
  match field k l with
  | Some JUndef => None
  | o => o
  end.
Proof.
  induction l as [|[k' v] r IH]; intros Hnd; [reflexivity|].
  cbn [map fst] in Hnd. apply NoDup_cons in Hnd as [Hk' Hnd].
  cbn [List.filter snd field].
  destruct (String.eqb_spec k' k) as [ ->|Hne].
  - destruct v; cbn [ApiCreate.isUndefined negb field];
      rewrite ?String.eqb_refl; try reflexivity.
    rewrite (IH Hnd), (field_absent r k Hk'). reflexivity.
  - destruct (negb (ApiCreate.isUndefined v)); cbn [field].
    + apply String.eqb_neq in Hne. rewrite Hne. now apply IH.
    + now apply IH.
Qed.

Lemma rawPayload_keys_NoDup (form : Row) : NoDup (map fst (ApiCreate.rawPayload form)).
Proof.
  unfold ApiCreate.rawPayload. cbn [map fst].
  repeat (apply NoDup_cons; split;
          [intros H; repeat (apply elem_of_cons in H as [H|H]; [discriminate H|]);
           now apply elem_of_nil in H|]).
  apply NoDup_nil_2.
Qed.

Lemma field_payload (form : Row) (k : string) :
  field k (ApiCreate.payload form) =
  match field k (ApiCreate.rawPayload form) with
  | Some JUndef => None
  | o => o
  end.
Proof. apply field_without_undefined, rawPayload_keys_NoDup. Qed.

End CreateFacts.

(** X12.  The body [createDemand] POSTs never holds an undefined value.
    The nine defaulted fields are always present and never null: the
    form's value when it has one, the default otherwise.  An optional
    field is present exactly when the form's value is neither null nor
    undefined, a date exactly when the form's value is truthy.  No [id] is
    sent.  From an empty form the body is the nine defaults. *)
Theorem createDemand_payload (form : Api.Row) :
  let body := ApiCreate.payload form in
  (forall k v, Api.field k body = Some v -> v <> Api.JUndef) /\
  (forall k, k ∈ Spec.createDefaulted ->
     exists v, Api.field k body = Some v /\ v <> Api.JUndef /\ v <> Api.JNull /\
               (Api.nullish (Api.prop form k) Api.JNull <> Api.JNull ->
                v = Api.prop form k)) /\
  (forall k, k ∈ Spec.createOptional ->
     Api.field k body =
       match Api.prop form k with
       | Api.JUndef | Api.JNull => None
       | w => Some w
       end) /\
  (forall k, k ∈ ["expected_delivery"; "expected_start_date"] ->
     Api.field k body =
       if Api.falsy (Api.prop form k) then None
       else Some (Api.toUtcMidnight (Api.prop form k))) /\
  Api.field "id" body = None /\
  ApiCreate.payload ∅ =
    [ ("title", Api.JStr ""); ("type", Api.JStr "Strategic");
      ("priority", Api.JStr "MEDIUM"); ("status", Api.JStr "Draft");
      ("current_stage", Api.JStr "Intake"); ("description", Api.JStr "");
      ("requestor", Api.JStr "John Smith");
      ("department", Api.JStr "IT Operations"); ("progress", Api.JNum 0) ].
Proof.
  cbv zeta. split; [|split; [|split; [|split; [|split]]]].
  - intros k v H Hv. subst v. rewrite CreateFacts.field_payload in H.
    destruct (Api.field k (ApiCreate.rawPayload form)) as [[]|]; discriminate H.
  - intros k Hk. rewrite CreateFacts.field_payload.
    unfold Spec.createDefaulted in Hk.
    repeat (apply elem_of_cons in Hk as [ ->|Hk]);
      try (now apply elem_of_nil in Hk);
      cbn [Api.field ApiCreate.rawPayload String.eqb Ascii.eqb Bool.eqb];
      match goal with |- context [Api.prop form ?k] =>
        destruct (Api.prop form k) as [| |b|n|s] end; cbn [Api.nullish];
      eexists; (split; [reflexivity|]);
      (split; [discriminate|]); (split; [discriminate|]);
      intros H; first [reflexivity | now contradict H].
  - intros k Hk. rewrite CreateFacts.field_payload.
    unfold Spec.createOptional in Hk.
    repeat (apply elem_of_cons in Hk as [ ->|Hk]);
      try (now apply elem_of_nil in Hk);
      cbn [Api.field ApiCreate.rawPayload String.eqb Ascii.eqb Bool.eqb];
      match goal with |- context [Api.prop form ?k] =>
        destruct (Api.prop form k) end; reflexivity.
  - intros k Hk. rewrite CreateFacts.field_payload.
    repeat (apply elem_of_cons in Hk as [ ->|Hk]);
      try (now apply elem_of_nil in Hk);
      cbn [Api.field ApiCreate.rawPayload String.eqb Ascii.eqb Bool.eqb];
      match goal with |- context [Api.prop form ?k] =>
        destruct (ApiFacts.toUtcMidnight_cases (Api.prop form k))
          as [[F E]|(F & F' & _)]; rewrite F; [now rewrite E|];
        destruct (Api.toUtcMidnight (Api.prop form k)); try reflexivity;
        discriminate F'
      end.
  - rewrite CreateFacts.field_payload. reflexivity.
  - reflexivity.
Qed.

Lemma createDemand_payload_witness :
  exists v,
    Api.field "status"
      (ApiCreate.payload {[ "title" := Api.JStr "New CRM";
                            "status" := Api.JStr "Under Review" ]}) = Some v /\
    v = Api.JStr "Under Review".
Proof.
  destruct (proj1 (proj2 (createDemand_payload
                            {[ "title" := Api.JStr "New CRM";
                               "status" := Api.JStr "Under Review" ]}))
              "status") as (v & Hv & _ & _ & Hf).
  - unfold Spec.createDefaulted.
    repeat first [apply list_elem_of_here | apply list_elem_of_further].
  - exists v. split; [exact Hv|]. apply Hf. vm_compute. discriminate.
Defined.

(** * Properties of the input validation *)

Module TextFacts.
Import Js Spec.

Lemma allChars_app P s t : allChars P (s ++ t) = allChars P s && allChars P t.
Proof.
  induction s as [|c s IH]; simpl; [reflexivity|].
  now rewrite IH, andb_assoc.
Qed.

Lemma allChars_substring P s : forall n m,
  allChars P s = true -> allChars P (String.substring n m s) = true.
Proof.
  induction s as [|c s IH]; intros n m H.
  - destruct n, m; reflexivity.
  - simpl in H. apply andb_true_iff in H as [Hc Hs].
    destruct n as [|n]; destruct m as [|m]; simpl; try reflexivity.
    + rewrite Hc. now apply IH.
    + now apply IH.
    + now apply IH.
Qed.

Lemma length_substring_le s : forall m,
  (String.length (String.substring 0 m s) <= m)%nat.
Proof.
  induction s as [|c s IH]; intros [|m]; simpl; try lia.
  specialize (IH m). lia.
Qed.

Lemma substring_whole s : forall m,
  (String.length s <= m)%nat -> String.substring 0 m s = s.
Proof.
  induction s as [|c s IH]; intros [|m] H; simpl in *; try reflexivity; try lia.
  f_equal. apply IH. lia.
Qed.

Lemma substring_empty s m :
  String.substring 0 (S m) s = "" -> s = "".
Proof. destruct s; [reflexivity|discriminate]. Qed.

Lemma allChars_trimStart P s : allChars P s = true -> allChars P (trimStart s) = true.
Proof.
  induction s as [|c s IH]; intros H; [reflexivity|].
  cbn [trimStart]. destruct (isWhite c); [|exact H].
  simpl in H. apply andb_true_iff in H as [_ H]. now apply IH.
Qed.

Lemma allChars_trimEnd P s : allChars P s = true -> allChars P (trimEnd s) = true.
Proof.
  induction s as [|c s IH]; intros H; [reflexivity|].
  simpl in H. apply andb_true_iff in H as [Hc Hs].
  cbn [trimEnd]. specialize (IH Hs).
  destruct (trimEnd s) as [|c' r'].
  - destruct (isWhite c); [reflexivity|]. simpl. now rewrite Hc.
  - cbn [allChars] in *. now rewrite Hc, IH.
Qed.

Lemma allChars_trim P s : allChars P s = true -> allChars P (trim s) = true.
Proof. intros H. unfold trim. now apply allChars_trimEnd, allChars_trimStart. Qed.

Lemma trimStart_empty s : trimStart s = "" <-> allChars isWhite s = true.
Proof.
  induction s as [|c s IH]; cbn [trimStart allChars]; [tauto|].
  destruct (isWhite c); cbn [andb]; [exact IH|].
  split; discriminate.
Qed.

Lemma trimEnd_empty s : trimEnd s = "" <-> allChars isWhite s = true.
Proof.
  induction s as [|c s IH]; cbn [trimEnd allChars]; [tauto|].
  destruct (trimEnd s) as [|c' r'].
  - destruct (isWhite c); cbn [andb]; [|split; discriminate].
    rewrite <- IH. tauto.
  - split; [discriminate|]. intros H. apply andb_true_iff in H as [_ H].
    apply IH in H. discriminate H.
Qed.

Lemma allWhite_trimStart s :
  allChars isWhite (trimStart s) = allChars isWhite s.
Proof.
  induction s as [|c s IH]; cbn [trimStart allChars]; [reflexivity|].
  destruct (isWhite c) eqn:W; cbn [andb allChars]; [exact IH|].
  now rewrite W.
Qed.

Lemma trim_empty s : trim s = "" <-> allChars isWhite s = true.
Proof. unfold trim. now rewrite trimEnd_empty, allWhite_trimStart. Qed.

End TextFacts.

Module ValidationFacts.
Import Js Spec Validation TextFacts.

Lemma escapeChar_notMarkup c : allChars notMarkup (escapeChar c) = true.
Proof. destruct c as [[] [] [] [] [] [] [] []]; reflexivity. Qed.

Lemma escapeChar_white c : allChars isWhite (escapeChar c) = isWhite c.
Proof. destruct c as [[] [] [] [] [] [] [] []]; reflexivity. Qed.

Lemma escapeChar_plain c : notEscaped c = true -> escapeChar c = String c "".
Proof. destruct c as [[] [] [] [] [] [] [] []]; intros H; try discriminate H; reflexivity. Qed.

Lemma escape_notMarkup s : allChars notMarkup (escape s) = true.
Proof.
  induction s as [|c s IH]; [reflexivity|].
  cbn [escape]. now rewrite allChars_app, escapeChar_notMarkup, IH.
Qed.

Lemma escape_white s : allChars isWhite (escape s) = allChars isWhite s.
Proof.
  induction s as [|c s IH]; [reflexivity|].
  cbn [escape allChars]. now rewrite allChars_app, escapeChar_white, IH.
Qed.

Lemma escape_plain s : allChars notEscaped s = true -> escape s = s.
Proof.
  induction s as [|c s IH]; intros H; [reflexivity|].
  simpl in H. apply andb_true_iff in H as [Hc Hs].
  cbn [escape]. rewrite (escapeChar_plain c Hc), (IH Hs). reflexivity.
Qed.

Lemma keep_allIdentifier s :
  allChars isIdentifierChar (keepIdentifierChars s) = true.
Proof.
  induction s as [|c s IH]; [reflexivity|].
  cbn [keepIdentifierChars]. destruct (isIdentifierChar c) eqn:E; [|exact IH].
  cbn [allChars]. now rewrite E, IH.
Qed.

Lemma keep_clean s :
  allChars isIdentifierChar s = true -> keepIdentifierChars s = s.
Proof.
  induction s as [|c s IH]; intros H; [reflexivity|].
  simpl in H. apply andb_true_iff in H as [Hc Hs].
  cbn [keepIdentifierChars]. now rewrite Hc, (IH Hs).
Qed.

Lemma eqb_empty s : String.eqb s "" = true <-> s = "".
Proof. apply String.eqb_eq. Qed.

Lemma validateTitle_valid (t : string) :
  valid (validateTitle t) = true <->
  Js.trim t <> "" /\ (String.length t <= 200)%nat.
Proof.
  unfold validateTitle, MAX_TITLE_LENGTH.
  destruct (String.eqb_spec t "") as [E|E]; cbn [orb].
  - rewrite E. cbn. split; [discriminate|]. intros [H _]. now contradict H.
  - destruct (Nat.eqb_spec (String.length (Js.trim t)) 0) as [L|L].
    + cbn. split; [discriminate|]. intros [H _].
      destruct (Js.trim t); [now contradict H|discriminate L].
    + destruct (Nat.ltb_spec 200 (String.length t)); cbn.
      * split; [discriminate|]. intros [_ H']. lia.
      * split; [|reflexivity]. intros _. split; [|lia].
        intros H'. rewrite H' in L. now apply L.
Qed.

Lemma validateDescription_valid (t : string) :
  valid (validateDescription t) = true <-> (String.length t <= 500)%nat.
Proof.
  unfold validateDescription, MAX_DESCRIPTION_LENGTH.
  destruct (String.eqb_spec t "") as [E|E]; cbn [negb andb].
  - rewrite E. cbn. split; [lia|reflexivity].
  - destruct (Nat.ltb_spec 500 (String.length t)); cbn.
    + split; [discriminate|lia].
    + split; [lia|reflexivity].
Qed.

Lemma includes_In (l : list string) (x : string) : includes l x = true <-> In x l.
Proof.
  unfold includes. rewrite existsb_exists. split.
  - intros (y & Hy & E). apply String.eqb_eq in E. now subst.
  - intros H. exists x. split; [exact H|apply String.eqb_refl].
Qed.

Lemma validateDemandType_valid (t : string) :
  valid (validateDemandType t) = true <-> In t validTypes.
Proof.
  unfold validateDemandType. rewrite <- includes_In.
  destruct (String.eqb_spec t "") as [E|E]; cbn [orb].
  - rewrite E. cbn. split; discriminate.
  - destruct (includes _ _); cbn; split; congruence.
Qed.

Lemma validatePriority_valid (t : string) :
  valid (validatePriority t) = true <-> In t validPriorities.
Proof.
  unfold validatePriority. rewrite <- includes_In.
  destruct (String.eqb_spec t "") as [E|E]; cbn [orb].
  - rewrite E. cbn. split; discriminate.
  - destruct (includes _ _); cbn; split; congruence.
Qed.

(** The verdict and the error list of [validateDemand] in terms of the
    four single verdicts. *)
Lemma validateDemand_bits (d : DemandInput) :
  (all_valid (validateDemand d) = true <->
     valid (validateTitle (title d)) = true /\
     valid (validateDescription (description d)) = true /\
     valid (validateDemandType (type d)) = true /\
     valid (validatePriority (priority d)) = true) /\
  (all_valid (validateDemand d) = true <-> errors (validateDemand d) = []) /\
  (length (errors (validateDemand d)) <= 4)%nat.
Proof.
  unfold validateDemand, pushError. cbv zeta. cbn [all_valid errors].
  destruct (valid (validateTitle _)), (valid (validateDescription _)),
    (valid (validateDemandType _)), (valid (validatePriority _));
    cbn; intuition (first [discriminate | lia]).
Qed.

Lemma sanitizeInput_nonblank (t : string) :
  Js.trim t <> "" -> sanitizeInput t <> "".
Proof.
  intros Ht. unfold sanitizeInput.
  destruct (String.eqb_spec t "") as [ ->|Hne]; [now contradict Ht|].
  intros H. apply substring_empty in H.
  apply trim_empty in H. rewrite escape_white in H.
  apply trim_empty in H. now apply Ht.
Qed.

End ValidationFacts.

(** X13.  [sanitizeIdentifier] returns only letters, digits, underscore
    and hyphen, at most fifty of them; it is idempotent, and it returns an
    input that is already of that form unchanged. *)
Theorem sanitizeIdentifier_clean (s : string) :
  Spec.allChars Validation.isIdentifierChar (Validation.sanitizeIdentifier s) = true /\
  (String.length (Validation.sanitizeIdentifier s) <= 50)%nat /\
  Validation.sanitizeIdentifier (Validation.sanitizeIdentifier s) =
    Validation.sanitizeIdentifier s /\
  (Spec.allChars Validation.isIdentifierChar s = true ->
   (String.length s <= 50)%nat ->
   Validation.sanitizeIdentifier s = s).
Proof.
  assert (Hid : forall t, Spec.allChars Validation.isIdentifierChar t = true ->
                  (String.length t <= 50)%nat -> Validation.sanitizeIdentifier t = t).
  { intros t Ht Hl. unfold Validation.sanitizeIdentifier.
    destruct (String.eqb_spec t "") as [ ->|_]; [reflexivity|].
    rewrite ValidationFacts.keep_clean by exact Ht.
    now apply TextFacts.substring_whole. }
  assert (Hc : Spec.allChars Validation.isIdentifierChar
                 (Validation.sanitizeIdentifier s) = true).
  { unfold Validation.sanitizeIdentifier. destruct (String.eqb s ""); [reflexivity|].
    apply TextFacts.allChars_substring, ValidationFacts.keep_allIdentifier. }
  assert (Hl : (String.length (Validation.sanitizeIdentifier s) <= 50)%nat).
  { unfold Validation.sanitizeIdentifier. destruct (String.eqb s ""); [simpl; lia|].
    apply TextFacts.length_substring_le. }
  split; [exact Hc|]. split; [exact Hl|]. split; [now apply Hid|exact (Hid s)].
Qed.

Lemma sanitizeIdentifier_clean_witness :
  Validation.sanitizeIdentifier "DEM-2025_001" = "DEM-2025_001".
Proof.
  apply (sanitizeIdentifier_clean "DEM-2025_001"); [reflexivity|simpl; lia].
Defined.

(** X14.  The text [sanitizeInput] returns holds no less-than,
    greater-than, double-quote or single-quote character and is at most
    1000 characters long.  An input of at most 1000 characters that holds
    none of the five replaced characters and has no surrounding
    whitespace is returned unchanged. *)
Theorem sanitizeInput_safe (s : string) :
  Spec.allChars Spec.notMarkup (Validation.sanitizeInput s) = true /\
  (String.length (Validation.sanitizeInput s) <= 1000)%nat /\
  (Spec.allChars Spec.notEscaped s = true -> Js.trim s = s ->
   (String.length s <= 1000)%nat -> Validation.sanitizeInput s = s).
Proof.
  unfold Validation.sanitizeInput.
  destruct (String.eqb_spec s "") as [ ->|Hne].
  - repeat split; simpl; lia.
  - split; [|split].
    + apply TextFacts.allChars_substring, TextFacts.allChars_trim,
        ValidationFacts.escape_notMarkup.
    + apply TextFacts.length_substring_le.
    + intros Hp Ht Hl. rewrite ValidationFacts.escape_plain by exact Hp.
      rewrite Ht. now apply TextFacts.substring_whole.
Qed.

Lemma sanitizeInput_safe_witness :
  Validation.sanitizeInput "Replace the CRM" = "Replace the CRM".
Proof.
  apply (sanitizeInput_safe "Replace the CRM"); [reflexivity|reflexivity|simpl; lia].
Defined.

(** X15.  A title that [validateTitle] accepts is never sanitised to the
    empty string: what [handleSubmitDemand] posts as the title of a
    validated demand is not empty. *)
Theorem valid_title_stays_nonempty (t : string) :
  Validation.valid (Validation.validateTitle t) = true ->
  Validation.sanitizeInput t <> "".
Proof.
  unfold Validation.validateTitle, Validation.sanitizeInput.
  destruct (String.eqb_spec t "") as [ ->|Hne]; [discriminate|].
  cbn [orb].
  destruct (Nat.eqb_spec (String.length (Js.trim t)) 0) as [E|E]; [discriminate|].
  intros _ H. apply TextFacts.substring_empty in H.
  apply TextFacts.trim_empty in H. rewrite ValidationFacts.escape_white in H.
  apply TextFacts.trim_empty in H. rewrite H in E. now apply E.
Qed.

Lemma valid_title_stays_nonempty_witness :
  Validation.valid (Validation.validateTitle "  <b>CRM</b> ") = true /\
  Validation.sanitizeInput "  <b>CRM</b> " <> "".
Proof.
  split; [reflexivity|].
  apply (valid_title_stays_nonempty "  <b>CRM</b> "). reflexivity.
Defined.

(** X16.  [validateDemand] accepts a demand exactly when the title has a
    non-blank character and at most 200 characters, the description has
    at most 500, the type is one of the five types and the priority one
    of the four priorities, all compared as written.  It accepts exactly
    when it reports no error, and it never reports more than four. *)
Theorem validateDemand_accepts (d : Validation.DemandInput) :
  (Validation.all_valid (Validation.validateDemand d) = true <->
     Js.trim (Validation.title d) <> "" /\
     (String.length (Validation.title d) <= 200)%nat /\
     (String.length (Validation.description d) <= 500)%nat /\
     In (Validation.type d) Validation.validTypes /\
     In (Validation.priority d) Validation.validPriorities) /\
  (Validation.all_valid (Validation.validateDemand d) = true <->
     Validation.errors (Validation.validateDemand d) = []) /\
  (length (Validation.errors (Validation.validateDemand d)) <= 4)%nat.
Proof.
  destruct (ValidationFacts.validateDemand_bits d) as (Hbits & Herr & Hlen).
  split; [|split; [exact Herr|exact Hlen]].
  rewrite Hbits, ValidationFacts.validateTitle_valid,
    ValidationFacts.validateDescription_valid,
    ValidationFacts.validateDemandType_valid,
    ValidationFacts.validatePriority_valid.
  tauto.
Qed.

(** * Properties of the submit form *)

Module SubmitFacts.
Import Api.

Lemma prop_list_to_map (l : list (string * JsVal)) (k : string) :
  prop (list_to_map l) k = match field k l with Some v => v | None => JUndef end.
Proof. unfold prop. now rewrite ApiFacts.field_list_to_map. Qed.

(** Reading a field of the body posted for a form object. *)
Ltac read_posted :=
  rewrite CreateFacts.field_payload;
  cbn [field ApiCreate.rawPayload String.eqb Ascii.eqb Bool.eqb];
  rewrite prop_list_to_map;
  unfold Submit.submitForm, Submit.draftForm;
  cbn [field String.eqb Ascii.eqb Bool.eqb nullish].

End SubmitFacts.

(** X17.  [handleSubmitDemand] sends nothing when validation fails: it
    reports the errors, of which there is at least one.  When validation
    passes it posts a demand with status Under Review at stage Screening,
    the sanitised title (never empty), the type and priority exactly as
    validated, and the stage it posts is one BU Head must approve. *)
Theorem handleSubmitDemand_gate (Number : string -> Api.JsVal)
    (fd : Submit.FormData) (user : string) :
  let v := Validation.validateDemand
             (Validation.mkInput (Submit.title fd) (Submit.description fd)
                (Submit.type fd) (Submit.priority fd)) in
  (Validation.all_valid v = false ->
     Submit.handleSubmitDemand Number fd user =
       Submit.ValidationFailed (Validation.errors v) /\
     Validation.errors v <> []) /\
  (Validation.all_valid v = true ->
     exists body,
       Submit.handleSubmitDemand Number fd user = Submit.Posted body /\
       Api.field "status" body = Some (Api.JStr "Under Review") /\
       Api.field "current_stage" body = Some (Api.JStr "Screening") /\
       App.requiredRoleForStage (Some "Screening") = Some App.BUHead /\
       Api.field "title" body =
         Some (Api.JStr (Validation.sanitizeInput (Submit.title fd))) /\
       Validation.sanitizeInput (Submit.title fd) <> "" /\
       Api.field "type" body = Some (Api.JStr (Submit.type fd)) /\
       In (Submit.type fd) Validation.validTypes /\
       Api.field "priority" body = Some (Api.JStr (Submit.priority fd)) /\
       In (Submit.priority fd) Validation.validPriorities /\
       Api.field "requestor" body = Some (Api.JStr user) /\
       Api.field "id" body = None).
Proof.
  cbv zeta. unfold Submit.handleSubmitDemand. cbv zeta.
  destruct (ValidationFacts.validateDemand_bits
              (Validation.mkInput (Submit.title fd) (Submit.description fd)
                 (Submit.type fd) (Submit.priority fd))) as (Hacc & Herr & _).
  cbn [Validation.title Validation.description Validation.type Validation.priority]
    in Hacc.
  split.
  - intros Hv. rewrite Hv. cbn [negb]. split; [reflexivity|].
    intros He. apply Herr in He. congruence.
  - intros Hv. rewrite Hv. cbn [negb].
    apply Hacc in Hv. destruct Hv as (Ht & _ & Hty & Hpr).
    apply ValidationFacts.validateTitle_valid in Ht as [Ht _].
    apply ValidationFacts.validateDemandType_valid in Hty.
    apply ValidationFacts.validatePriority_valid in Hpr.
    eexists. split; [reflexivity|].
    assert (Hne : forall l x, In x l -> (forall y, In y l -> y <> "") ->
                    Submit.orDefault x "Strategic" = x /\ Submit.orDefault x "MEDIUM" = x).
    { intros l x Hx Hl'. unfold Submit.orDefault.
      destruct (String.eqb_spec x "") as [E|_]; [|now split].
      exfalso. now apply (Hl' x Hx). }
    assert (Hty' : Submit.orDefault (Submit.type fd) "Strategic" = Submit.type fd).
    { apply (Hne _ _ Hty). intros y Hy.
      repeat (destruct Hy as [<-|Hy]; [discriminate|]). destruct Hy. }
    assert (Hpr' : Submit.orDefault (Submit.priority fd) "MEDIUM" = Submit.priority fd).
    { apply (Hne _ _ Hpr). intros y Hy.
      repeat (destruct Hy as [<-|Hy]; [discriminate|]). destruct Hy. }
    split; [SubmitFacts.read_posted; reflexivity|].
    split; [SubmitFacts.read_posted; reflexivity|].
    split; [reflexivity|].
    split; [SubmitFacts.read_posted; reflexivity|].
    split.
    { apply ValidationFacts.sanitizeInput_nonblank. exact Ht. }
    split; [SubmitFacts.read_posted; now rewrite Hty'|].
    split; [exact Hty|].
    split; [SubmitFacts.read_posted; now rewrite Hpr'|].
    split; [exact Hpr|].
    split; [SubmitFacts.read_posted; reflexivity|].
    rewrite CreateFacts.field_payload. reflexivity.
Qed.

Lemma handleSubmitDemand_gate_witness :
  exists body,
    Submit.handleSubmitDemand (fun _ => Api.JNum 0)
      (Submit.mkForm "New CRM" "Strategic" "HIGH" "Replace the CRM"
         "" "" "" "" "" "" "" "" "" "") "Dana" = Submit.Posted body /\
    Api.field "status" body = Some (Api.JStr "Under Review") /\
    Api.field "current_stage" body = Some (Api.JStr "Screening").
Proof.
  destruct (proj2 (handleSubmitDemand_gate (fun _ => Api.JNum 0)
                     (Submit.mkForm "New CRM" "Strategic" "HIGH" "Replace the CRM"
                        "" "" "" "" "" "" "" "" "" "") "Dana") eq_refl)
    as (body & Hb & Hs & Hc & _).
  exists body. split; [exact Hb|]. split; [exact Hs|exact Hc].
Defined.

(** X18.  [handleSaveDraft] posts without validating: whatever the form
    holds, the body has status Draft, stage Intake and a title that is not
    empty (the form's title, or "(Untitled)" when that is empty); a blank
    type or priority is posted as Strategic or LOW.  A demand with status
    Draft is in no role's approval queue. *)
Theorem handleSaveDraft_posts_draft (Number : string -> Api.JsVal)
    (fd : Submit.FormData) (user : string) :
  (exists body t,
     Submit.handleSaveDraft Number fd user = Submit.Posted body /\
     Api.field "status" body = Some (Api.JStr "Draft") /\
     Api.field "current_stage" body = Some (Api.JStr "Intake") /\
     Api.field "title" body = Some (Api.JStr t) /\ t <> "" /\
     (Submit.title fd <> "" -> t = Submit.title fd) /\
     (Submit.type fd = "" -> Api.field "type" body = Some (Api.JStr "Strategic")) /\
     (Submit.priority fd = "" -> Api.field "priority" body = Some (Api.JStr "LOW")) /\
     Api.field "description" body = Some (Api.JStr (Submit.description fd))) /\
  (forall r demands d, App.status d = App.Draft -> d ∉ Views.approvalQueue r demands).
Proof.
  split.
  - unfold Submit.handleSaveDraft.
    exists (ApiCreate.payload (list_to_map (Submit.draftForm Number fd user))),
           (Submit.orDefault (Submit.title fd) "(Untitled)").
    split; [reflexivity|].
    split; [SubmitFacts.read_posted; reflexivity|].
    split; [SubmitFacts.read_posted; reflexivity|].
    split; [SubmitFacts.read_posted; reflexivity|].
    split.
    { unfold Submit.orDefault.
      destruct (String.eqb_spec (Submit.title fd) ""); [discriminate|assumption]. }
    split.
    { intros Hne. unfold Submit.orDefault.
      destruct (String.eqb_spec (Submit.title fd) ""); [now contradict Hne|reflexivity]. }
    split; [intros E; SubmitFacts.read_posted; now rewrite E|].
    split; [intros E; SubmitFacts.read_posted; now rewrite E|].
    SubmitFacts.read_posted. reflexivity.
  - intros r demands d Hd Hin. unfold Views.approvalQueue in Hin.
    rewrite !list_elem_of_In, !filter_In in Hin.
    destruct Hin as [[_ Hst] _]. rewrite Hd in Hst. discriminate Hst.
Qed.

Lemma handleSaveDraft_posts_draft_witness :
  exists body t,
    Submit.handleSaveDraft (fun _ => Api.JNum 0)
      (Submit.mkForm "" "" "" "" "" "" "" "" "" "" "" "" "" "") "Dana" =
      Submit.Posted body /\
    Api.field "title" body = Some (Api.JStr t) /\ t <> "" /\
    Api.field "priority" body = Some (Api.JStr "LOW").
Proof.
  destruct (proj1 (handleSaveDraft_posts_draft (fun _ => Api.JNum 0)
                     (Submit.mkForm "" "" "" "" "" "" "" "" "" "" "" "" "" "") "Dana"))
    as (body & t & Hb & _ & _ & Ht & Hne & _ & _ & Hp & _).
  exists body, t. split; [exact Hb|]. split; [exact Ht|]. split; [exact Hne|].
  apply Hp. reflexivity.
Defined.

(** * Properties of the role-based access control *)

Module RbacFacts.
Import Rbac.

Lemma hasPermission_spec (rs : list Role) (p : Permission) :
  hasPermission rs p = true <-> exists r, r ∈ rs /\ p ∈ getRolePermissions r.
Proof.
  unfold hasPermission. rewrite existsb_exists. split.
  - intros (r & Hr & Hp). exists r. rewrite list_elem_of_In.
    split; [exact Hr|]. now apply bool_decide_eq_true in Hp.
  - intros (r & Hr & Hp). exists r. rewrite <- list_elem_of_In.
    split; [exact Hr|]. now apply bool_decide_eq_true.
Qed.

Lemma hasPermission_mono (rs rs' : list Role) (p : Permission) :
  (forall r, r ∈ rs -> r ∈ rs') ->
  hasPermission rs p = true -> hasPermission rs' p = true.
Proof.
  intros Hsub. rewrite !hasPermission_spec.
  intros (r & Hr & Hp). exists r. split; [now apply Hsub|exact Hp].
Qed.

(** Membership in a role's permission list, decided by evaluation. *)
Lemma member_decide (p : Permission) (r : Role) :
  p ∈ getRolePermissions r <-> bool_decide (p ∈ getRolePermissions r) = true.
Proof. now rewrite bool_decide_eq_true. Qed.

Lemma admin_has_all (p : Permission) : p ∈ getRolePermissions Admin.
Proof. apply member_decide. destruct p; reflexivity. Qed.

Lemma admin_only (p : Permission) (r : Role) :
  p = demand_delete \/ p = admin_users \/ p = admin_system ->
  p ∈ getRolePermissions r -> r = Admin.
Proof.
  intros Hp H. apply member_decide in H.
  destruct Hp as [ ->|[ ->| ->]]; destruct r; try reflexivity;
    vm_compute in H; discriminate H.
Qed.

Lemma approve_roles (r : Role) :
  demand_approve ∈ getRolePermissions r <-> r <> DemandRequestor.
Proof.
  rewrite member_decide.
  destruct r; vm_compute; split; intros H; try reflexivity; try discriminate;
    try congruence.
Qed.

End RbacFacts.

(** X19.  [getRolePermissions] terminates on the role table: four units
    of fuel or more always give the same list, the one the definition
    returns.  The list has no duplicates and is exactly the role's own
    permissions together with the permissions of every role it inherits
    from. *)
Theorem getRolePermissions_inheritance :
  (forall n r, (4 <= n)%nat ->
     Rbac.getRolePermissionsFuel n r = Some (Rbac.getRolePermissions r)) /\
  (forall r, NoDup (Rbac.getRolePermissions r)) /\
  (forall c p, c ∈ Rbac.ROLE_PERMISSIONS ->
     (p ∈ Rbac.getRolePermissions (Rbac.role c) <->
      p ∈ Rbac.permissions c \/
      exists rs r', Rbac.inherits c = Some rs /\ r' ∈ rs /\
                    p ∈ Rbac.getRolePermissions r')).
Proof.
  split; [|split].
  - intros n r Hn. do 4 (destruct n as [|n]; [lia|]).
    destruct r; reflexivity.
  - intros r. apply (bool_decide_unpack _). destruct r; vm_compute; exact I.
  - intros c p Hc. unfold Rbac.ROLE_PERMISSIONS in Hc.
    repeat (apply elem_of_cons in Hc as [ ->|Hc]);
      try (now apply elem_of_nil in Hc);
      cbn [Rbac.role Rbac.permissions Rbac.inherits]; split.
    all: try (intros H; apply RbacFacts.member_decide in H; destruct p;
              vm_compute in H; try discriminate H;
              first [ left; apply (bool_decide_unpack _); vm_compute; exact I
                    | right; eexists; eexists; split; [reflexivity|];
                      split; [apply list_elem_of_here|];
                      apply (bool_decide_unpack _); vm_compute; exact I ]).
    all: intros [H|(rs & r' & Hrs & Hr' & H)];
      try discriminate Hrs;
      try (injection Hrs as <-; apply list_elem_of_singleton in Hr'; subst r';
           apply RbacFacts.member_decide in H);
      try (apply (bool_decide_pack _) in H);
      apply RbacFacts.member_decide; destruct p;
      first [reflexivity | vm_compute in H; discriminate H | exfalso; exact H].
Qed.

Lemma getRolePermissions_inheritance_witness :
  Rbac.demand_create ∈ Rbac.getRolePermissions Rbac.BUHead.
Proof.
  apply (proj2 (proj2 getRolePermissions_inheritance)
           (Rbac.mkRolePermissions Rbac.BUHead
              [Rbac.demand_read; Rbac.demand_approve; Rbac.demand_reject;
               Rbac.reports_view]
              (Some [Rbac.DemandRequestor]))
           Rbac.demand_create).
  - unfold Rbac.ROLE_PERMISSIONS. apply list_elem_of_further, list_elem_of_here.
  - right. exists [Rbac.DemandRequestor], Rbac.DemandRequestor.
    split; [reflexivity|]. split; [apply list_elem_of_here|].
    apply (bool_decide_unpack _). vm_compute. exact I.
Defined.

(** X20.  More roles never mean less access: the three permission checks
    are monotone in the user's roles, a user without roles passes none of
    them for any permission, and holding two sets of roles gives exactly
    the permissions of either. *)
Theorem permission_checks_monotone :
  (forall rs rs' p, (forall r, r ∈ rs -> r ∈ rs') ->
     Rbac.hasPermission rs p = true -> Rbac.hasPermission rs' p = true) /\
  (forall rs rs' ps, (forall r, r ∈ rs -> r ∈ rs') ->
     Rbac.hasAnyPermission rs ps = true -> Rbac.hasAnyPermission rs' ps = true) /\
  (forall rs rs' ps, (forall r, r ∈ rs -> r ∈ rs') ->
     Rbac.hasAllPermissions rs ps = true -> Rbac.hasAllPermissions rs' ps = true) /\
  (forall p, Rbac.hasPermission [] p = false) /\
  (forall rs rs' p,
     Rbac.hasPermission (rs ++ rs') p =
       Rbac.hasPermission rs p || Rbac.hasPermission rs' p).
Proof.
  split; [|split; [|split; [|split]]].
  - exact RbacFacts.hasPermission_mono.
  - intros rs rs' ps Hsub. unfold Rbac.hasAnyPermission.
    rewrite !existsb_exists. intros (p & Hp & H). exists p.
    split; [exact Hp|]. now apply (RbacFacts.hasPermission_mono rs rs').
  - intros rs rs' ps Hsub. unfold Rbac.hasAllPermissions.
    rewrite !forallb_forall. intros H p Hp.
    apply (RbacFacts.hasPermission_mono rs rs'); [exact Hsub|now apply H].
  - reflexivity.
  - intros rs rs' p. unfold Rbac.hasPermission. apply existsb_app.
Qed.

Lemma permission_checks_monotone_witness :
  Rbac.hasPermission [Rbac.DemandRequestor; Rbac.ITPMO] Rbac.demand_assign = true.
Proof.
  apply (proj1 permission_checks_monotone [Rbac.ITPMO]).
  - intros r Hr. now apply list_elem_of_further.
  - reflexivity.
Defined.

(** X21.  Deleting demands and the two administration permissions belong
    to Admin alone: a user holds one of them exactly when Admin is among
    the user's roles, and a user with the Admin role holds every
    permission. *)
Theorem admin_only_permissions (rs : list Rbac.Role) :
  (forall p, p = Rbac.demand_delete \/ p = Rbac.admin_users \/ p = Rbac.admin_system ->
     (Rbac.hasPermission rs p = true <-> Rbac.Admin ∈ rs)) /\
  (Rbac.Admin ∈ rs -> forall p, Rbac.hasPermission rs p = true).
Proof.
  assert (Hadm : Rbac.Admin ∈ rs -> forall p, Rbac.hasPermission rs p = true).
  { intros H p. apply RbacFacts.hasPermission_spec. exists Rbac.Admin.
    split; [exact H|apply RbacFacts.admin_has_all]. }
  split; [|exact Hadm].
  intros p Hp. split; [|intros H; now apply Hadm].
  intros H. apply RbacFacts.hasPermission_spec in H as (r & Hr & Hin).
  now rewrite <- (RbacFacts.admin_only p r Hp Hin).
Qed.

Lemma admin_only_permissions_witness :
  Rbac.hasPermission [Rbac.DBR; Rbac.Admin] Rbac.demand_delete = true <->
  Rbac.Admin ∈ [Rbac.DBR; Rbac.Admin].
Proof.
  apply (proj1 (admin_only_permissions [Rbac.DBR; Rbac.Admin])). now left.
Defined.

(** X22.  Every access [DemandAccess] grants implies view access: whoever
    may edit, delete or approve a demand may also see it. *)
Theorem every_action_implies_view (rbac : Rbac.Context) (d : Rbac.DemandView)
    (a : Rbac.Action) :
  Rbac.demandAccess rbac d a = true -> Rbac.demandAccess rbac d Rbac.view = true.
Proof.
  unfold Rbac.demandAccess, Rbac.canAccessDemand, Rbac.canModifyDemand.
  destruct a; try (intros H; exact H);
    destruct (Rbac.hasPermission (Rbac.roles rbac) Rbac.admin_system);
    try reflexivity;
    destruct (Rbac.isOwn rbac d); try reflexivity;
    destruct (Rbac.hasPermission (Rbac.roles rbac) Rbac.demand_approve);
    try reflexivity; cbn; try discriminate; intros H; exact H.
Qed.

Lemma every_action_implies_view_witness :
  Rbac.demandAccess
    (Rbac.mkContext "bo@x.org" "Bo" "bo@x.org" [Rbac.BUHead] true)
    (Rbac.mkDemandView (Some "Dana") App.Submitted) Rbac.approve = true /\
  Rbac.demandAccess
    (Rbac.mkContext "bo@x.org" "Bo" "bo@x.org" [Rbac.BUHead] true)
    (Rbac.mkDemandView (Some "Dana") App.Submitted) Rbac.view = true.
Proof.
  split; [reflexivity|].
  apply (every_action_implies_view _ _ Rbac.approve). reflexivity.
Defined.

(** X23.  [DemandAccess] grants delete exactly to users with the Admin
    role, whatever the demand; it grants approve exactly when the demand
    is Submitted or Under Review and the user holds a role other than
    Demand Requestor. *)
Theorem delete_and_approve_access (rbac : Rbac.Context) (d : Rbac.DemandView) :
  (Rbac.demandAccess rbac d Rbac.delete = true <-> Rbac.Admin ∈ Rbac.roles rbac) /\
  (Rbac.demandAccess rbac d Rbac.approve = true <->
     (Rbac.status d = App.Submitted \/ Rbac.status d = App.UnderReview) /\
     exists r, r ∈ Rbac.roles rbac /\ r <> Rbac.DemandRequestor).
Proof.
  split.
  - cbn [Rbac.demandAccess]. rewrite andb_true_iff. split.
    + intros [_ H]. apply RbacFacts.hasPermission_spec in H as (r & Hr & Hin).
      rewrite <- (RbacFacts.admin_only Rbac.demand_delete r (or_introl eq_refl) Hin).
      exact Hr.
    + intros H.
      assert (Hall : forall p, Rbac.hasPermission (Rbac.roles rbac) p = true).
      { intros p. apply RbacFacts.hasPermission_spec. exists Rbac.Admin.
        split; [exact H|apply RbacFacts.admin_has_all]. }
      unfold Rbac.canModifyDemand. rewrite !Hall. now split.
  - cbn [Rbac.demandAccess].
    rewrite andb_true_iff, orb_true_iff, !bool_decide_eq_true,
      RbacFacts.hasPermission_spec.
    split.
    + intros [(r & Hr & Hin) Hst]. split; [exact Hst|].
      exists r. split; [exact Hr|]. now apply RbacFacts.approve_roles.
    + intros [Hst (r & Hr & Hne)]. split; [|exact Hst].
      exists r. split; [exact Hr|]. now apply RbacFacts.approve_roles.
Qed.

Lemma delete_and_approve_access_witness :
  Rbac.demandAccess
    (Rbac.mkContext "ann@x.org" "Ann" "ann@x.org" [Rbac.Admin] true)
    (Rbac.mkDemandView (Some "Dana") App.Approved) Rbac.delete = true <->
  Rbac.Admin ∈ [Rbac.Admin].
Proof.
  apply (proj1 (delete_and_approve_access
                  (Rbac.mkContext "ann@x.org" "Ann" "ann@x.org" [Rbac.Admin] true)
                  (Rbac.mkDemandView (Some "Dana") App.Approved))).
Defined.

Module MapFacts.
Import Rbac.

Lemma aad_includes_In (x : string) (l : list string) :
  existsb (String.eqb x) l = true <-> In x l.
Proof.
  rewrite existsb_exists. split.
  - intros (y & Hy & E). apply String.eqb_eq in E. now subst.
  - intros H. exists x. split; [exact H|apply String.eqb_refl].
Qed.

Lemma aad_includes_false (x : string) (l : list string) :
  existsb (String.eqb x) l = false <-> ~ In x l.
Proof.
  rewrite <- aad_includes_In. destruct (existsb _ l); split; congruence.
Qed.

Ltac in_list := apply (bool_decide_unpack _); vm_compute; exact I.
Ltac not_in_list X := apply (bool_decide_pack _) in X; vm_compute in X; destruct X.

(** The list built from the five tests, whatever their outcomes. *)
Lemma roles_of_tests (b1 b2 b3 b4 b5 : bool) :
  let rs :=
    let roles := [] in
    let roles := if b1 then (roles ++ [DemandRequestor])%list else roles in
    let roles := if b2 then (roles ++ [BUHead])%list else roles in
    let roles := if b3 then (roles ++ [ITPMO])%list else roles in
    let roles := if b4 then (roles ++ [DBR])%list else roles in
    let roles := if b5 then (roles ++ [Admin])%list else roles in
    if (0 <? length roles)%nat then roles else [DemandRequestor] in
  rs <> [] /\ NoDup rs /\
  (BUHead ∈ rs <-> b2 = true) /\ (ITPMO ∈ rs <-> b3 = true) /\
  (DBR ∈ rs <-> b4 = true) /\ (Admin ∈ rs <-> b5 = true) /\
  (DemandRequestor ∈ rs <->
     b1 = true \/ (b2 = false /\ b3 = false /\ b4 = false /\ b5 = false)).
Proof.
  destruct b1, b2, b3, b4, b5; cbn;
    (split; [discriminate|]); (split; [in_list|]);
    repeat (split;
            [split; intros X;
             first [reflexivity | discriminate X | in_list | not_in_list X]|]);
    (split;
     [ intros X;
       first [ left; reflexivity | right; repeat split; reflexivity
             | not_in_list X ]
     | intros [X|(A & B & C & D)]; first [in_list | discriminate] ]).
Qed.

End MapFacts.

(** X24.  [mapAADRolesToAppRoles] never returns an empty list and never
    lists a role twice.  A role other than Demand Requestor is in the
    result exactly when its name is in the identity provider's role list;
    Demand Requestor is in the result when its name is listed, and also
    whenever no other role's name is (no list, an empty list, or only
    unknown names). *)
Theorem mapAADRolesToAppRoles_spec (aadRoles : option (list string)) :
  let rs := Rbac.mapAADRolesToAppRoles aadRoles in
  rs <> [] /\
  NoDup rs /\
  (forall r, r <> Rbac.DemandRequestor ->
     (r ∈ rs <-> exists l, aadRoles = Some l /\ In (Spec.aadName r) l)) /\
  (Rbac.DemandRequestor ∈ rs <->
     (exists l, aadRoles = Some l /\ In "DemandRequestor" l) \/
     (forall r l, aadRoles = Some l -> r <> Rbac.DemandRequestor ->
        ~ In (Spec.aadName r) l)).
Proof.
  cbv zeta.
  assert (Hex : forall (l : list string) n,
            (exists l0, Some l = Some l0 /\ In n l0) <-> In n l).
  { intros l n. split; [intros (l0 & E & H); now injection E as <-|].
    intros H. now exists l. }
  destruct aadRoles as [l|].
  2:{ split; [discriminate|]. split; [apply NoDup_singleton|].
      split.
      - intros r Hr. split.
        + intros H. apply list_elem_of_singleton in H. now contradict Hr.
        + intros (l & E & _). discriminate E.
      - split; [|intros _; apply list_elem_of_here].
        intros _. right. intros r l E. discriminate E. }
  unfold Rbac.mapAADRolesToAppRoles. cbv zeta.
  pose proof (MapFacts.aad_includes_In "DemandRequestor" l) as H1.
  pose proof (MapFacts.aad_includes_In "BUHead" l) as H2.
  pose proof (MapFacts.aad_includes_In "ITPMO" l) as H3.
  pose proof (MapFacts.aad_includes_In "DBR" l) as H4.
  pose proof (MapFacts.aad_includes_In "Admin" l) as H5.
  assert (Hlen : (length l =? 0)%nat = true ->
                 forall n, existsb (String.eqb n) l = false).
  { intros E n. destruct l; [reflexivity|discriminate E]. }
  assert (Hother : (forall r l0, Some l = Some l0 -> r <> Rbac.DemandRequestor ->
                      ~ In (Spec.aadName r) l0) <->
                   ~ In "BUHead" l /\ ~ In "ITPMO" l /\ ~ In "DBR" l /\ ~ In "Admin" l).
  { split.
    - intros H. repeat split.
      + apply (H Rbac.BUHead l eq_refl). discriminate.
      + apply (H Rbac.ITPMO l eq_refl). discriminate.
      + apply (H Rbac.DBR l eq_refl). discriminate.
      + apply (H Rbac.Admin l eq_refl). discriminate.
    - intros (A & B & C & D) r l0 E Hr. injection E as <-.
      destruct r; cbn [Spec.aadName]; try assumption. now contradict Hr. }
  rewrite Hother. setoid_rewrite Hex. clear Hother Hex.
  rewrite <- !MapFacts.aad_includes_false, <- H1.
  assert (Hr : forall r, r <> Rbac.DemandRequestor ->
            (In (Spec.aadName r) l <->
             existsb (String.eqb (Spec.aadName r)) l = true)).
  { intros r _. symmetry. apply MapFacts.aad_includes_In. }
  set (b1 := existsb (String.eqb "DemandRequestor") l) in *.
  set (b2 := existsb (String.eqb "BUHead") l) in *.
  set (b3 := existsb (String.eqb "ITPMO") l) in *.
  set (b4 := existsb (String.eqb "DBR") l) in *.
  set (b5 := existsb (String.eqb "Admin") l) in *.
  set (b0 := (length l =? 0)%nat) in *.
  destruct (MapFacts.roles_of_tests (b1 || b0) b2 b3 b4 b5)
    as (Hne & Hnd & R2 & R3 & R4 & R5 & R1).
  cbv zeta in Hne, Hnd, R1, R2, R3, R4, R5.
  split; [exact Hne|]. split; [exact Hnd|]. split.
  - intros r Hne'. rewrite (Hr r Hne').
    destruct r; cbn [Spec.aadName]; first [now contradict Hne' | assumption].
  - rewrite R1. rewrite orb_true_iff.
    destruct b0 eqn:E0; [|intuition congruence].
    assert (b1 = false /\ b2 = false /\ b3 = false /\ b4 = false /\ b5 = false)
      as (-> & -> & -> & -> & ->)
      by (repeat split; apply Hlen; reflexivity).
    intuition congruence.
Qed.

Lemma mapAADRolesToAppRoles_spec_witness :
  Rbac.ITPMO ∈ Rbac.mapAADRolesToAppRoles (Some ["Auditor"; "ITPMO"]) <->
  exists l, Some ["Auditor"; "ITPMO"] = Some l /\ In "ITPMO" l.
Proof.
  apply (proj1 (proj2 (proj2 (mapAADRolesToAppRoles_spec (Some ["Auditor"; "ITPMO"]))))
           Rbac.ITPMO).
  discriminate.
Defined.

(** X25.  In the context [RBACProvider] builds from [useAADUser], whose
    result carries no role list, a signed-in user holds the Demand
    Requestor role and nothing else, and a signed-out user no role.  So
    [DemandAccess] never grants approve or delete there; it grants edit
    exactly to a signed-in user on an own demand in Draft, and view
    exactly on own demands, signed in or not.  The context's name is never
    empty. *)
Theorem userContext_access (u : Rbac.AADUser) (d : Rbac.DemandView) :
  let rbac := Rbac.userContext u in
  Rbac.roles rbac =
    (if Rbac.aad_isAuthenticated u then [Rbac.DemandRequestor] else []) /\
  Rbac.demandAccess rbac d Rbac.approve = false /\
  Rbac.demandAccess rbac d Rbac.delete = false /\
  (Rbac.demandAccess rbac d Rbac.edit = true <->
     Rbac.aad_isAuthenticated u = true /\
     (Rbac.requestor d = Some (Rbac.name rbac) \/
      Rbac.requestor d = Some (Rbac.email rbac)) /\
     Rbac.status d = App.Draft) /\
  (Rbac.demandAccess rbac d Rbac.view = true <->
     Rbac.requestor d = Some (Rbac.name rbac) \/
     Rbac.requestor d = Some (Rbac.email rbac)) /\
  Rbac.name rbac <> "".
Proof.
  cbv zeta.
  assert (Hown : Rbac.isOwn (Rbac.userContext u) d = true <->
                 Rbac.requestor d = Some (Rbac.name (Rbac.userContext u)) \/
                 Rbac.requestor d = Some (Rbac.email (Rbac.userContext u))).
  { unfold Rbac.isOwn. now rewrite orb_true_iff, !bool_decide_eq_true. }
  rewrite <- Hown.
  assert (Hroles : Rbac.roles (Rbac.userContext u) =
                   if Rbac.aad_isAuthenticated u then [Rbac.DemandRequestor] else []).
  { unfold Rbac.userContext. cbn [Rbac.roles].
    destruct (Rbac.aad_isAuthenticated u); reflexivity. }
  split; [exact Hroles|].
  unfold Rbac.demandAccess, Rbac.canAccessDemand, Rbac.canModifyDemand.
  rewrite Hroles.
  split; [destruct (Rbac.aad_isAuthenticated u); reflexivity|].
  split.
  { destruct (Rbac.aad_isAuthenticated u);
      [change (Rbac.hasPermission [Rbac.DemandRequestor] Rbac.demand_delete) with false
      |change (Rbac.hasPermission [] Rbac.demand_delete) with false];
      apply andb_false_r. }
  split; [|split].
  - destruct (Rbac.aad_isAuthenticated u).
    + change (Rbac.hasPermission [Rbac.DemandRequestor] Rbac.admin_system) with false.
      change (Rbac.hasPermission [Rbac.DemandRequestor] Rbac.demand_update) with true.
      cbv iota. destruct (Rbac.isOwn _ d); cbn [andb].
      * case_bool_decide; intuition congruence.
      * intuition congruence.
    + change (Rbac.hasPermission [] Rbac.admin_system) with false.
      change (Rbac.hasPermission [] Rbac.demand_update) with false.
      cbv iota. destruct (_ && _); intuition congruence.
  - destruct (Rbac.aad_isAuthenticated u).
    + change (Rbac.hasPermission [Rbac.DemandRequestor] Rbac.admin_system) with false.
      change (Rbac.hasPermission [Rbac.DemandRequestor] Rbac.demand_approve) with false.
      cbv iota. destruct (Rbac.isOwn _ d); intuition congruence.
    + change (Rbac.hasPermission [] Rbac.admin_system) with false.
      change (Rbac.hasPermission [] Rbac.demand_approve) with false.
      cbv iota. destruct (Rbac.isOwn _ d); intuition congruence.
  - unfold Rbac.userContext. cbn [Rbac.name].
    destruct (String.eqb_spec (Rbac.aad_name u) ""); [discriminate|assumption].
Qed.

Lemma userContext_access_witness :
  Rbac.demandAccess (Rbac.userContext (Rbac.mkAADUser "Dana" "dana@x.org" true))
    (Rbac.mkDemandView (Some "Dana") App.Draft) Rbac.edit = true <->
  true = true /\
  (Some "Dana" = Some "Dana" \/ Some "Dana" = Some "dana@x.org") /\
  App.Draft = App.Draft.
Proof.
  apply (proj1 (proj2 (proj2 (proj2
           (userContext_access (Rbac.mkAADUser "Dana" "dana@x.org" true)
              (Rbac.mkDemandView (Some "Dana") App.Draft)))))).
Defined.

(** * Properties of the e-mail pattern *)

Module RegexFacts.
Import Email Spec.

Lemma append_empty (s t : string) : s ++ t = "" -> s = "" /\ t = "".
Proof. destruct s; [now split|discriminate]. Qed.

Lemma nullable_spec (r : Regex) : nullable r = true <-> matches r "".
Proof.
  split.
  - induction r as [| |p|a IHa b IHb|a IHa]; cbn [nullable]; intros H;
      try discriminate H.
    + constructor.
    + apply andb_true_iff in H as [Ha Hb].
      change "" with ("" ++ ""). constructor; auto.
    + constructor.
  - intros H. remember "" as w eqn:E.
    induction H as [|p c Hp|a b s t Ha IHa Hb IHb| |a s t Ha IHa Hs IHs];
      cbn [nullable]; try reflexivity.
    + discriminate E.
    + apply append_empty in E as [ -> ->].
      rewrite IHa, IHb; reflexivity.
Qed.

Lemma derive_sound (c : ascii) (r : Regex) : forall r' s,
  In r' (derive c r) -> matches r' s -> matches r (String c s).
Proof.
  induction r as [| |p|a IHa b IHb|a IHa]; cbn [derive]; intros r' s Hin Hm.
  - destruct Hin.
  - destruct Hin.
  - destruct (p c) eqn:Pc; [|destruct Hin].
    destruct Hin as [<-|[]]. inversion Hm; subst. now constructor.
  - apply in_app_or in Hin as [Hin|Hin].
    + apply in_map_iff in Hin as (a' & <- & Ha').
      inversion Hm; subst.
      change (String c (s0 ++ t)) with (String c s0 ++ t).
      constructor; [|assumption]. now apply (IHa a').
    + destruct (nullable a) eqn:Na; [|destruct Hin].
      change (String c s) with ("" ++ String c s).
      constructor; [now apply nullable_spec|]. now apply (IHb r').
  - apply in_map_iff in Hin as (a' & <- & Ha').
    inversion Hm; subst.
    change (String c (s0 ++ t)) with (String c s0 ++ t).
    apply m_star_more; [|assumption]. now apply (IHa a').
Qed.

Lemma derive_complete (r : Regex) (w : string) :
  matches r w -> forall c s, w = String c s ->
  exists r', In r' (derive c r) /\ matches r' s.
Proof.
  intros H. induction H as [|p c0 Hp|a b s1 t Ha IHa Hb IHb| |a s1 t Ha IHa Hs IHs];
    intros c s E.
  - discriminate E.
  - injection E as <- <-. exists Empty. cbn [derive]. rewrite Hp.
    split; [now left|constructor].
  - cbn [derive]. destruct s1 as [|c1 s1'].
    + cbn in E. destruct (IHb c s E) as (r' & Hin & Hm).
      exists r'. split; [|exact Hm].
      apply in_or_app. right.
      now rewrite (proj2 (nullable_spec a) Ha).
    + cbn in E. injection E as -> <-.
      destruct (IHa c s1' eq_refl) as (a' & Hin & Hm).
      exists (Seq a' b). split; [|now constructor].
      apply in_or_app. left. apply in_map_iff. now exists a'.
  - discriminate E.
  - destruct s1 as [|c1 s1'].
    + cbn in E. now apply IHs.
    + cbn in E. injection E as -> <-.
      destruct (IHa c s1' eq_refl) as (a' & Hin & Hm).
      exists (Seq a' (Star a)). split; [|now constructor].
      cbn [derive]. apply in_map_iff. now exists a'.
Qed.

Lemma test_spec (s : string) : forall rs,
  test rs s = true <-> exists r, In r rs /\ matches r s.
Proof.
  induction s as [|c s IH]; intros rs; cbn [test].
  - rewrite existsb_exists. split; intros (r & Hin & H); exists r;
      (split; [exact Hin|]); now apply nullable_spec.
  - rewrite IH. split.
    + intros (r' & Hin & Hm). apply in_flat_map in Hin as (r & Hr & Hin).
      exists r. split; [exact Hr|]. now apply (derive_sound c r r').
    + intros (r & Hr & Hm).
      destruct (derive_complete r _ Hm c s eq_refl) as (r' & Hin & Hm').
      exists r'. split; [|exact Hm']. apply in_flat_map. now exists r.
Qed.

Lemma matches_class (p : ascii -> bool) (s : string) :
  matches (Class p) s <-> exists c, s = String c "" /\ p c = true.
Proof.
  split.
  - intros H. inversion H; subst. now exists c.
  - intros (c & -> & Hp). now constructor.
Qed.

Lemma matches_star_class (p : ascii -> bool) (s : string) :
  matches (Star (Class p)) s <-> allChars p s = true.
Proof.
  split.
  - intros H. remember (Star (Class p)) as r eqn:E.
    induction H as [|q c Hq|a b s t Ha IHa Hb IHb| |a s t Ha IHa Hs IHs];
      try discriminate E; [reflexivity|].
    injection E as ->. apply matches_class in Ha as (c & -> & Hc).
    change (String c "" ++ t) with (String c t). cbn [allChars].
    rewrite Hc. now apply IHs.
  - induction s as [|c s IH]; intros H; [constructor|].
    cbn in H. apply andb_true_iff in H as [Hc Hs].
    change (String c s) with (String c "" ++ s).
    apply m_star_more; [now constructor|now apply IH].
Qed.

Lemma matches_plus_class (p : ascii -> bool) (s : string) :
  matches (Plus (Class p)) s <-> s <> "" /\ allChars p s = true.
Proof.
  unfold Plus. split.
  - intros H. inversion H as [| |? ? u t Hu Ht| |]; subst.
    apply matches_class in Hu as (c & -> & Hc).
    apply matches_star_class in Ht.
    split; [discriminate|].
    change (String c "" ++ t) with (String c t). cbn [allChars].
    now rewrite Hc, Ht.
  - intros [Hne H]. destruct s as [|c s]; [now contradict Hne|].
    cbn in H. apply andb_true_iff in H as [Hc Hs].
    change (String c s) with (String c "" ++ s).
    constructor; [now constructor|now apply matches_star_class].
Qed.

Lemma isAt_eq c : isAt c = true <-> c = "@"%char.
Proof.
  unfold isAt. rewrite N.eqb_eq. split; [|now intros ->].
  intros H. rewrite <- (ascii_N_embedding c), H. reflexivity.
Qed.

Lemma isDot_eq c : isDot c = true <-> c = "."%char.
Proof.
  unfold isDot. rewrite N.eqb_eq. split; [|now intros ->].
  intros H. rewrite <- (ascii_N_embedding c), H. reflexivity.
Qed.

Lemma matches_email (s : string) :
  matches emailRegex s <->
  exists a b c,
    s = a ++ "@" ++ b ++ "." ++ c /\
    (a <> "" /\ allChars notSpaceNorAt a = true) /\
    (b <> "" /\ allChars notSpaceNorAt b = true) /\
    (c <> "" /\ allChars notSpaceNorAt c = true).
Proof.
  unfold emailRegex. split.
  - intros H. inversion H as [| |? ? a t1 Ha H1| |]; subst.
    inversion H1 as [| |? ? at_ t2 Hat H2| |]; subst.
    inversion H2 as [| |? ? b t3 Hb H3| |]; subst.
    inversion H3 as [| |? ? dot c Hdot Hc| |]; subst.
    apply matches_class in Hat as (x & -> & Hx). apply isAt_eq in Hx as ->.
    apply matches_class in Hdot as (y & -> & Hy). apply isDot_eq in Hy as ->.
    exists a, b, c. split; [reflexivity|].
    now rewrite <- !matches_plus_class.
  - intros (a & b & c & -> & Ha & Hb & Hc).
    rewrite <- matches_plus_class in Ha, Hb, Hc.
    constructor; [exact Ha|].
    change ("@" ++ b ++ "." ++ c) with (String "@" "" ++ (b ++ "." ++ c)).
    constructor; [now constructor|].
    constructor; [exact Hb|].
    change ("." ++ c) with (String "." "" ++ c).
    constructor; [now constructor|exact Hc].
Qed.

End RegexFacts.

(** X26.  [validateEmail] accepts the empty string (the field is
    optional) and otherwise exactly the strings of the form
    local@domain.tail in which the three parts are not empty and hold
    neither whitespace nor another at-sign. *)
Theorem validateEmail_accepts (email : string) :
  Validation.valid (Email.validateEmail email) = true <->
  email = "" \/
  exists a b c,
    email = a ++ "@" ++ b ++ "." ++ c /\
    (a <> "" /\ Spec.allChars Email.notSpaceNorAt a = true) /\
    (b <> "" /\ Spec.allChars Email.notSpaceNorAt b = true) /\
    (c <> "" /\ Spec.allChars Email.notSpaceNorAt c = true).
Proof.
  rewrite <- RegexFacts.matches_email.
  unfold Email.validateEmail.
  destruct (String.eqb_spec email "") as [E|E].
  - split; [now left|reflexivity].
  - pose proof (RegexFacts.test_spec email [Email.emailRegex]) as T.
    destruct (Email.test [Email.emailRegex] email); cbn.
    + split; [|reflexivity]. intros _. right.
      destruct (proj1 T eq_refl) as (r & [<-|[]] & Hm). exact Hm.
    + split; [discriminate|]. intros [H|H]; [now contradict E|].
      assert (false = true) as X; [|discriminate X].
      apply T. exists Email.emailRegex. split; [now left|exact H].
Qed.

Lemma validateEmail_accepts_witness :
  Validation.valid (Email.validateEmail "dana@x.org") = true /\
  Validation.valid (Email.validateEmail "dana@x") = false /\
  Validation.valid (Email.validateEmail "da na@x.org") = false /\
  Validation.valid (Email.validateEmail "dana@@x.org") = false.
Proof.
  split; [|repeat split; reflexivity].
  apply (proj2 (validateEmail_accepts "dana@x.org")).
  right. exists "dana", "x", "org". repeat split; discriminate.
Defined.

(** * Properties of the demand table *)

(** X27.  The table filter: with an empty search and both filters unset
    every demand is shown; the letter case of the search term does not
    matter; the rows shown are rows of the list, in their order; under a
    status filter only demands with that status are shown, and under a
    type filter only demands of that type. *)
Theorem filteredDemands_table (demands : list Listing.Row) :
  Listing.filteredDemands "" None "" demands = demands /\
  (forall t sf tf,
     Listing.filteredDemands (Js.toLowerCase t) sf tf demands =
     Listing.filteredDemands t sf tf demands) /\
  (forall t sf tf, sublist (Listing.filteredDemands t sf tf demands) demands) /\
  (forall t st tf d, d ∈ Listing.filteredDemands t (Some st) tf demands ->
     App.status (Listing.demand d) = st) /\
  (forall t sf tf d, tf <> "" -> d ∈ Listing.filteredDemands t sf tf demands ->
     Listing.type d = tf).
Proof.
  split; [|split; [|split; [|split]]].
  - unfold Listing.filteredDemands. induction demands as [|d l IH]; [reflexivity|].
    cbn [List.filter]. rewrite IH.
    assert (H : forall s, Listing.includes s "" = true) by (intros [|? ?]; reflexivity).
    match goal with |- (if ?b then _ else _) = _ =>
      assert (Hb : b = true) by (cbv zeta; cbn [Js.toLowerCase]; now rewrite H)
    end.
    now rewrite Hb.
  - intros t sf tf. unfold Listing.filteredDemands.
    now rewrite StringFacts.toLowerCase_idem.
  - intros t sf tf. unfold Listing.filteredDemands.
    induction demands as [|d l IH]; [constructor|].
    cbn [List.filter]. destruct (_ && _); now constructor.
  - intros t st tf d Hd. unfold Listing.filteredDemands in Hd.
    rewrite list_elem_of_In, filter_In in Hd. destruct Hd as [_ H].
    cbv zeta in H. apply andb_true_iff in H as [H _].
    apply andb_true_iff in H as [_ H]. now apply bool_decide_eq_true in H.
  - intros t sf tf d Hne Hd. unfold Listing.filteredDemands in Hd.
    rewrite list_elem_of_In, filter_In in Hd. destruct Hd as [_ H].
    cbv zeta in H. apply andb_true_iff in H as [_ H].
    destruct (String.eqb_spec tf "") as [E|_]; [now contradict Hne|].
    cbn [orb] in H. now apply String.eqb_eq in H.
Qed.

Lemma filteredDemands_table_witness :
  Listing.filteredDemands "LAPTOP" (Some App.Submitted) ""
    [ Listing.mkRow (App.mkDemand "D-1" App.Draft (Some "Intake") None)
        "New CRM" "Strategic" None;
      Listing.mkRow (App.mkDemand "D-2" App.Submitted (Some "Screening") None)
        "Laptop refresh" "Operational" (Some "All sites") ] =
    [ Listing.mkRow (App.mkDemand "D-2" App.Submitted (Some "Screening") None)
        "Laptop refresh" "Operational" (Some "All sites") ] /\
  App.status
    (Listing.demand
       (Listing.mkRow (App.mkDemand "D-2" App.Submitted (Some "Screening") None)
          "Laptop refresh" "Operational" (Some "All sites"))) = App.Submitted.
Proof.
  split; [reflexivity|].
  apply (proj1 (proj2 (proj2 (proj2
           (filteredDemands_table
              [ Listing.mkRow (App.mkDemand "D-1" App.Draft (Some "Intake") None)
                  "New CRM" "Strategic" None;
                Listing.mkRow (App.mkDemand "D-2" App.Submitted (Some "Screening") None)
                  "Laptop refresh" "Operational" (Some "All sites") ]))))
           "LAPTOP" App.Submitted "").
  vm_compute. apply list_elem_of_here.
Defined.
